(** * creditcard: a shallow embedding of [creditcard.go]

    The Go package validates credit card data: it classifies a card
    number by its leading digits ([determineCardType]), checks the Luhn
    checksum ([validateLuhn]), the expiry month and year, the
    expiration date and the CVV length, and gathers the outcome in a
    [Validation] value ([Validate]).

    Conventions of the embedding:
    - a Go [string] is a sequence of bytes: Rocq's [string], a list of
      8-bit [ascii]; [len] is [String.length];
    - a Go [int] (64 bits) is a [Z]; the only arithmetic of the package
      is on numbers below 1000000, so no wrap-around can occur;
    - a run-time panic (a slice out of range) is the [Panicked] outcome;
    - a Go [error] is an [option string]: [None] is [nil], [Some m] an
      error whose [Error()] text is [m];
    - [time.Now()] is read from a parameter [now], an instant counted in
      nanoseconds from Go's zero time, January 1 of year 1, 00:00 UTC. *)

From Stdlib Require Import ZArith List String Ascii Bool Lia DecimalString.
Import ListNotations.

Local Open Scope string_scope.
Local Open Scope Z_scope.

(** ** Outcomes: a function returns, or the goroutine panics *)

Inductive outcome (A : Type) : Type :=
| Returned (a : A)
| Panicked.

Arguments Returned {A} a.
Arguments Panicked {A}.

Definition bind {A B : Type} (m : outcome A) (k : A -> outcome B) : outcome B :=
  match m with
  | Returned a => k a
  | Panicked => Panicked
  end.

Notation "x <- m ;; k" := (bind m (fun x => k))
  (at level 61, m at next level, right associativity).
Notation "' p <- m ;; k" := (bind m (fun x => let p := x in k))
  (at level 61, p pattern, m at next level, right associativity).

(** ** The data model *)

(** [error]: [nil] or an error with its message. *)
Definition error : Type := option string.

(** [type Card struct]; the field [Type] is spelled [Type_], the Go
    name being a keyword here. *)
Record Card : Type := mkCard {
  Type_ : string;
  Number : string;
  ExpiryMonth : Z;
  ExpiryYear : Z;
  CVV : string
}.

(** [type Validation struct].  The field [Card] of the Go struct is a
    pointer to the card that was validated, which [Validate] may have
    written to: [Card_] is the card as it is after the call. *)
Record Validation : Type := mkValidation {
  Card_ : Card;
  ValidCardNumber : bool;
  ValidExpiryMonth : bool;
  ValidExpiryYear : bool;
  ValidCVV : bool;
  IsExpired : bool;
  Errors : list string
}.

(** [type cardType int] with its [iota] constants, [Unknown] being 0. *)
Inductive cardType : Type :=
| Unknown | AmericanExpress | Aura | Bankcard | Cabal | ChinaUnionPay
| Dankort | DinersClubCarteBlanche | DinersClubEnroute
| DinersClubInternational | Discover | Elo | Hipercard | InstaPayment
| InterPayment | JCB | Maestro | Mastercard | Visa | VisaElectron.

(** [cardTypeNames] indexed by the card type: [func (cardType) name()]. *)
Definition name (t : cardType) : string :=
  match t with
  | Unknown => "Unknown Card"
  | AmericanExpress => "American Express"
  | Aura => "Aura"
  | Bankcard => "Bankcard"
  | Cabal => "Cabal"
  | ChinaUnionPay => "China UnionPay"
  | Dankort => "Dankort"
  | DinersClubCarteBlanche => "Diners Club Carte Blanche"
  | DinersClubEnroute => "Diners Club Enroute"
  | DinersClubInternational => "Diners Club International"
  | Discover => "Discover"
  | Elo => "Elo"
  | Hipercard => "Hipercard"
  | InstaPayment => "InstaPayment"
  | InterPayment => "InterPayment"
  | JCB => "JCB"
  | Maestro => "Maestro"
  | Mastercard => "Mastercard"
  | Visa => "Visa"
  | VisaElectron => "Visa Electron"
  end.

(** ** Go's library functions used by the package *)

Module Go.

(** [len(s)] as an [int]. *)
Definition len (s : string) : Z := Z.of_nat (String.length s).

(** ['0' <= ch && ch <= '9']. *)
Definition isDigit (ch : ascii) : bool :=
  let n := Z.of_N (N_of_ascii ch) in (48 <=? n) && (n <=? 57).

Definition digitVal (ch : ascii) : Z := Z.of_N (N_of_ascii ch) - 48.

(** The digit loop of [strconv.Atoi]: [n = n*10 + int(ch)], a syntax
    error at the first byte that is not a digit. *)
Fixpoint digitsValue (s : string) (n : Z) : option Z :=
  match s with
  | EmptyString => Some n
  | String ch rest =>
      if isDigit ch then digitsValue rest (n * 10 + digitVal ch) else None
  end.

Definition maxInt : Z := 2 ^ 63 - 1.
Definition minInt : Z := - 2 ^ 63.

(** [strconv.Atoi(s)]: an optional sign, then decimal digits only.
    The result is the value and whether an error came with it: 0 on a
    syntax error (an empty string, a lone sign, a byte that is not a
    digit), the nearest [int] on a value out of range. *)
Definition Atoi (s : string) : Z * bool :=
  match s with
  | EmptyString => (0, true)
  | String c0 rest =>
      let neg := Ascii.eqb c0 "-" in
      let body := if neg || Ascii.eqb c0 "+" then rest else s in
      match body with
      | EmptyString => (0, true)
      | _ =>
          match digitsValue body 0 with
          | None => (0, true)
          | Some n =>
              let v := if neg then - n else n in
              if v <? minInt then (minInt, true)
              else if maxInt <? v then (maxInt, true)
              else (v, false)
          end
      end
  end.

(** [s[:n]]: the first [n] bytes; out of range, the program panics. *)
Definition sliceTo (s : string) (n : nat) : outcome string :=
  if (n <=? String.length s)%nat then Returned (substring 0 n s) else Panicked.

(** [s[i]] for an index in range (the only use, in [validateLuhn],
    runs [i] over [0 .. len(s)-1]). *)
Definition byteAt (s : string) (i : nat) : ascii :=
  match String.get i s with
  | Some ch => ch
  | None => zero
  end.

(** [string(b)] for a byte [b]: the UTF-8 encoding of the code point
    [b], one byte below 128 and two bytes from 128 on. *)
Definition stringOfByte (b : ascii) : string :=
  let n := N_of_ascii b in
  if (n <? 128)%N then String b EmptyString
  else String (ascii_of_N (192 + n / 64)) (String (ascii_of_N (128 + n mod 64)) EmptyString).

(** [fmt.Sprintf("%d", n)]. *)
Definition formatInt (n : Z) : string := NilZero.string_of_int (Z.to_int n).

End Go.

(** ** Classification of a card number *)

(** [type digits [6]int]: always six entries. *)
Definition digits : Type := list Z.

(** [func (d *digits) at(i int) int { return d[i-1] }]; the package calls
    it with the constants 1 to 6 only. *)
Definition at_ (d : digits) (i : nat) : Z := nth (i - 1) d 0.

(** [d[i] = v] on the array. *)
Fixpoint setDigit (d : digits) (i : nat) (v : Z) : digits :=
  match d, i with
  | [], _ => []
  | _ :: t, O => v :: t
  | h :: t, S j => h :: setDigit t j v
  end.

(** The loop that fills [ccDigits]:
    [for i := 0; i < 6; i++ { if i < ccLen { ccDigits[i], _ = strconv.Atoi(c.Number[:i+1]) } }].
    The guard [i < ccLen] keeps the slice in range. *)
Definition fillDigits (number : string) : digits :=
  fold_left
    (fun (ccDigits : digits) (i : nat) =>
       if (i <? String.length number)%nat
       then setDigit ccDigits i (fst (Go.Atoi (substring 0 (i + 1) number)))
       else ccDigits)
    (seq 0 6) [0; 0; 0; 0; 0; 0].

(** The [case] conditions of the [switch] in [determineCardType], one
    definition per case, in the order of the source.  [d] is [ccDigits]
    and [ccLen] is [len(c.Number)]; [&&] and [||] evaluate from left to
    right as in Go. *)
Section Cases.

Variable d : digits.
Variable ccLen : Z.

Definition caseElo : bool :=
  (at_ d 4 =? 4011) || (at_ d 6 =? 431274) || (at_ d 6 =? 438935) ||
  (at_ d 6 =? 451416) || (at_ d 6 =? 457393) || (at_ d 4 =? 4576) ||
  (at_ d 6 =? 457631) || (at_ d 6 =? 457632) || (at_ d 6 =? 504175) ||
  (at_ d 6 =? 627780) || (at_ d 6 =? 636297) || (at_ d 6 =? 636368) ||
  (at_ d 6 =? 636369) || ((at_ d 6 >=? 506699) && (at_ d 6 <=? 506778)) ||
  ((at_ d 6 >=? 509000) && (at_ d 6 <=? 509999)) ||
  ((at_ d 6 >=? 650031) && (at_ d 6 <=? 650051)) ||
  ((at_ d 6 >=? 650035) && (at_ d 6 <=? 650033)) ||
  ((at_ d 6 >=? 650405) && (at_ d 6 <=? 650439)) ||
  ((at_ d 6 >=? 650485) && (at_ d 6 <=? 650538)) ||
  ((at_ d 6 >=? 650541) && (at_ d 6 <=? 650598)) ||
  ((at_ d 6 >=? 650700) && (at_ d 6 <=? 650718)) ||
  ((at_ d 6 >=? 650720) && (at_ d 6 <=? 650727)) ||
  ((at_ d 6 >=? 650901) && (at_ d 6 <=? 650920)) ||
  ((at_ d 6 >=? 651652) && (at_ d 6 <=? 651679)) ||
  ((at_ d 6 >=? 655000) && (at_ d 6 <=? 655019)) ||
  ((at_ d 6 >=? 655021) && (at_ d 6 <=? 655021)).

Definition caseCabal : bool :=
  (at_ d 6 >=? 604201) && (at_ d 6 <=? 604219).

Definition caseHipercard : bool :=
  (at_ d 6 =? 384100) || (at_ d 6 =? 384140) || (at_ d 6 =? 384160) ||
  (at_ d 6 =? 606282) || (at_ d 6 =? 637095) || (at_ d 4 =? 637568) ||
  (at_ d 4 =? 637599) || (at_ d 4 =? 637609) || (at_ d 4 =? 637612).

Definition caseAmericanExpress : bool :=
  (at_ d 2 =? 34) || (at_ d 2 =? 37).

Definition caseBankcard : bool :=
  (at_ d 4 =? 5610) || ((at_ d 6 >=? 560221) && (at_ d 6 <=? 560225)).

Definition caseChinaUnionPay : bool :=
  at_ d 2 =? 62.

Definition caseDinersClubCarteBlanche : bool :=
  (at_ d 3 >=? 300) && (at_ d 3 <=? 305) && (ccLen =? 15).

Definition caseDinersClubEnroute : bool :=
  (at_ d 4 =? 2014) || (at_ d 4 =? 2149).

Definition caseDinersClubInternational : bool :=
  (((at_ d 3 >=? 300) && (at_ d 3 <=? 305)) || (at_ d 3 =? 309) ||
   (at_ d 2 =? 36) || (at_ d 2 =? 38) || (at_ d 2 =? 39)) && (ccLen <=? 14).

Definition caseDiscover : bool :=
  (at_ d 4 =? 6011) || ((at_ d 6 >=? 622126) && (at_ d 6 <=? 622925)) ||
  ((at_ d 3 >=? 644) && (at_ d 3 <=? 649)) || (at_ d 2 =? 65).

Definition caseInterPayment : bool :=
  (at_ d 3 =? 636) && (ccLen >=? 16) && (ccLen <=? 19).

Definition caseInstaPayment : bool :=
  (at_ d 3 >=? 637) && (at_ d 3 <=? 639) && (ccLen =? 16).

(** The Maestro case is
    [at(4) == 5018 || ... || at(4) == 6763 || c.Number[:3] == "0604" || at(4) == 6390]:
    the ten tests before the slice expression, ... *)
Definition caseMaestroHead : bool :=
  (at_ d 4 =? 5018) || (at_ d 4 =? 5020) || (at_ d 4 =? 5038) ||
  (at_ d 4 =? 5612) || (at_ d 4 =? 5893) || (at_ d 4 =? 6304) ||
  (at_ d 4 =? 6759) || (at_ d 4 =? 6761) || (at_ d 4 =? 6762) ||
  (at_ d 4 =? 6763).

(** ... and, once [c.Number[:3]] has been evaluated to [first3], the
    two tests from it on. *)
Definition caseMaestroTail (first3 : string) : bool :=
  (first3 =? "0604")%string || (at_ d 4 =? 6390).

Definition caseDankort : bool :=
  at_ d 4 =? 5019.

Definition caseMastercard : bool :=
  (at_ d 2 >=? 51) && (at_ d 2 <=? 55).

Definition caseJCB : bool :=
  at_ d 2 =? 35.

Definition caseAura : bool :=
  at_ d 2 =? 50.

Definition caseVisaElectron : bool :=
  (at_ d 4 =? 4026) || (at_ d 6 =? 417500) || (at_ d 4 =? 4405) ||
  (at_ d 4 =? 4508) || (at_ d 4 =? 4844) || (at_ d 4 =? 4913) ||
  (at_ d 4 =? 4917).

Definition caseVisa : bool :=
  at_ d 1 =? 4.

(** The cases before Maestro, Elo to InstaPayment, first match wins. *)
Definition beforeMaestro : option cardType :=
  if caseElo then Some Elo
  else if caseCabal then Some Cabal
  else if caseHipercard then Some Hipercard
  else if caseAmericanExpress then Some AmericanExpress
  else if caseBankcard then Some Bankcard
  else if caseChinaUnionPay then Some ChinaUnionPay
  else if caseDinersClubCarteBlanche then Some DinersClubCarteBlanche
  else if caseDinersClubEnroute then Some DinersClubEnroute
  else if caseDinersClubInternational then Some DinersClubInternational
  else if caseDiscover then Some Discover
  else if caseInterPayment then Some InterPayment
  else if caseInstaPayment then Some InstaPayment
  else None.

(** The cases after Maestro, Dankort to Visa, and the [default]. *)
Definition afterMaestro : cardType * error :=
  if caseDankort then (Dankort, None)
  else if caseMastercard then (Mastercard, None)
  else if caseJCB then (JCB, None)
  else if caseAura then (Aura, None)
  else if caseVisaElectron then (VisaElectron, None)
  else if caseVisa then (Visa, None)
  else (Unknown, Some "unknown creditcard type").

End Cases.

(** [func (c *Card) determineCardType() (cardType, error)].  The slice
    [c.Number[:3]] of the Maestro case is evaluated only when the cases
    before it and the ten tests before it have failed, and it panics on
    a number of fewer than three bytes. *)
Definition determineCardType (c : Card) : outcome (cardType * error) :=
  let ccLen := Go.len (Number c) in
  let ccDigits := fillDigits (Number c) in
  match beforeMaestro ccDigits ccLen with
  | Some t => Returned (t, None)
  | None =>
      if caseMaestroHead ccDigits then Returned (Maestro, None)
      else
        first3 <- Go.sliceTo (Number c) 3 ;;
        if caseMaestroTail ccDigits first3 then Returned (Maestro, None)
        else Returned (afterMaestro ccDigits)
  end.

(** ** The Luhn checksum *)

(** The body of the loop of [validateLuhn] at index [i]: the digit
    [mod], doubled when [alternate] is set and brought back to one digit
    by [(mod % 10) + 1]; Go's [%] truncates, as [Z.rem]. *)
Definition luhnDigit (number : string) (i : nat) (alternate : bool) : Z :=
  let mod_ := fst (Go.Atoi (Go.stringOfByte (Go.byteAt number i))) in
  if alternate then
    let mod_ := mod_ * 2 in
    if mod_ >? 9 then Z.rem mod_ 10 + 1 else mod_
  else mod_.

(** [for i := numberLen - 1; i > -1; i-- { ... }] with [k = i + 1] the
    number of iterations left, and the loop's variables [alternate] and
    [sum] as arguments. *)
Fixpoint luhnLoop (number : string) (k : nat) (alternate : bool) (sum : Z) : Z :=
  match k with
  | O => sum
  | S i => luhnLoop number i (negb alternate) (sum + luhnDigit number i alternate)
  end.

(** [func (c *Card) validateLuhn() bool]. *)
Definition validateLuhn (c : Card) : bool :=
  let numberLen := Go.len (Number c) in
  if (numberLen <? 13) || (numberLen >? 19) then false
  else Z.rem (luhnLoop (Number c) (String.length (Number c)) false 0) 10 =? 0.

(** ** Go's [time] package, as far as [isExpired] uses it *)

Module Time.

(** An instant, in nanoseconds from the zero [Time], which is January
    1 of year 1, 00:00:00 UTC. *)
Definition Time : Type := Z.

(** [Time{}], what [time.Parse] returns together with an error. *)
Definition zero : Time := 0.

Definition isLeap (year : Z) : bool :=
  (year mod 4 =? 0) && (negb (year mod 100 =? 0) || (year mod 400 =? 0)).

(** Days of the year before the first of [month], leap day apart. *)
Definition daysBefore (month : Z) : Z :=
  nth (Z.to_nat (month - 1)) [0; 31; 59; 90; 120; 151; 181; 212; 243; 273; 304; 334] 0.

Definition daysIn (month year : Z) : Z :=
  if (month =? 2) && isLeap year then 29
  else nth (Z.to_nat (month - 1)) [31; 28; 31; 30; 31; 30; 31; 31; 30; 31; 30; 31] 0.

(** Days from January 1 of year 1 to January 1 of [year], in the
    proleptic Gregorian calendar. *)
Definition daysSinceZero (year : Z) : Z :=
  let y := year - 1 in 365 * y + y / 4 - y / 100 + y / 400.

Definition nsPerDay : Z := 86400 * 1000000000.

(** [time.Date(year, month, day, 0, 0, 0, 0, time.UTC)] for a month in
    1..12 and a day of that month. *)
Definition Date (year month day : Z) : Time :=
  (daysSinceZero year + daysBefore month
   + (if isLeap year && (3 <=? month) then 1 else 0) + (day - 1)) * nsPerDay.

(** [t.Before(u)]. *)
Definition Before (t u : Time) : bool := t <? u.

(** [getnum(s, true)]: exactly two digits, and the rest. *)
Definition getnum2 (s : string) : option (Z * string) :=
  match s with
  | String a (String b rest) =>
      if Go.isDigit a && Go.isDigit b
      then Some (Go.digitVal a * 10 + Go.digitVal b, rest)
      else None
  | _ => None
  end.

(** [skip(value, "-")]. *)
Definition skipDash (s : string) : option string :=
  match s with
  | String ch rest => if Ascii.eqb ch "-" then Some rest else None
  | EmptyString => None
  end.

(** The year of the layout, [2006]: four bytes, the first a digit,
    all of them digits. *)
Definition getLongYear (s : string) : option (Z * string) :=
  match s with
  | String a (String b (String c (String e rest))) =>
      if Go.isDigit a then
        match Go.digitsValue (String a (String b (String c (String e EmptyString)))) 0 with
        | Some y => Some (y, rest)
        | None => None
        end
      else None
  | _ => None
  end.

(** The fields [time.Parse("2006-01-02", value)] reads: a four-digit
    year, a two-digit month in 1..12, a two-digit day of that month,
    dashes between them and nothing after. *)
Definition parseFields (value : string) : option (Z * Z * Z) :=
  match getLongYear value with
  | None => None
  | Some (year, value) =>
  match skipDash value with
  | None => None
  | Some value =>
  match getnum2 value with
  | None => None
  | Some (month, value) =>
  if (month <=? 0) || (12 <? month) then None else
  match skipDash value with
  | None => None
  | Some value =>
  match getnum2 value with
  | None => None
  | Some (day, value) =>
  match value with
  | String _ _ => None
  | EmptyString =>
      if (day <? 1) || (day >? daysIn month year) then None
      else Some (year, month, day)
  end end end end end end.

(** [time.Parse("2006-01-02", value)]: the time and whether an error
    came with it; on an error the time is the zero [Time]. *)
Definition Parse (value : string) : Time * bool :=
  match parseFields value with
  | Some (year, month, day) => (Date year month day, false)
  | None => (zero, true)
  end.

End Time.

(** ** The checks of [Validate] *)

(** [func (c *Card) validExpiryMonth() bool]. *)
Definition validExpiryMonth (c : Card) : bool :=
  if (ExpiryMonth c <? 1) || (12 <? ExpiryMonth c) then false else true.

(** [func (c *Card) validExpiryYear() bool]. *)
Definition validExpiryYear (c : Card) : bool :=
  if (ExpiryYear c <? 1900) || (ExpiryYear c >? 2200) then false else true.

(** [func (c *Card) isExpired() bool]; [now] is what [time.Now()]
    returns.  The error of [time.Parse] is dropped, as the source does
    ([parsetime, _ := ...]). *)
Definition isExpired (now : Time.Time) (c : Card) : bool :=
  if negb (validExpiryMonth c) || negb (validExpiryYear c) then true
  else
    let date := (Go.formatInt (ExpiryYear c) ++ "-" ++ Go.formatInt (ExpiryMonth c) ++ "-01")%string in
    let parsetime := fst (Time.Parse date) in
    Time.Before parsetime now.

(** [func (c *Card) matchCVV() bool]. *)
Definition matchCVV (c : Card) : bool :=
  if (Type_ c =? "American Express")%string
  then Go.len (CVV c) =? 4
  else Go.len (CVV c) =? 3.

(** [func (c *Card) validCardNumber() (bool, error)]. *)
Definition validCardNumber (c : Card) : outcome (bool * error) :=
  '(cardType, err) <- determineCardType c ;;
  match err with
  | Some _ => Returned (false, err)
  | None =>
      if negb (name cardType =? Type_ c)%string
      then Returned (false, Some "given card type doesn't match determined card type")
      else Returned (validateLuhn c, None)
  end.

(** [c.Type = s]. *)
Definition setType (c : Card) (s : string) : Card :=
  mkCard s (Number c) (ExpiryMonth c) (ExpiryYear c) (CVV c).

(** [val.Errors = append(val.Errors, m)] under a condition. *)
Definition appendIf (b : bool) (errs : list string) (m : string) : list string :=
  if b then (errs ++ [m])%list else errs.

(** [if err != nil { val.Errors = append(val.Errors, err.Error()) }]. *)
Definition appendErr (err : error) (errs : list string) : list string :=
  match err with
  | Some m => (errs ++ [m])%list
  | None => errs
  end.

Definition monthMessage (c : Card) : string :=
  ("month '" ++ Go.formatInt (ExpiryMonth c) ++ "' is not a valid month")%string.

Definition yearMessage (c : Card) : string :=
  ("year '" ++ Go.formatInt (ExpiryYear c) ++ "' is not a valid year")%string.

(** [func (c *Card) Validate() *Validation].  The card is passed from
    step to step, since the fourth step may write its [Type]; the
    [Validation] returned points to that same card. *)
Definition Validate (now : Time.Time) (c : Card) : outcome Validation :=
  let errs := [] in
  let vMonth := validExpiryMonth c in
  let errs := appendIf (negb vMonth) errs (monthMessage c) in
  let vYear := validExpiryYear c in
  let errs := appendIf (negb vYear) errs (yearMessage c) in
  let expired := isExpired now c in
  let errs := appendIf expired errs "creditcard is expired" in
  '(c, errs) <-
     (if Go.len (Type_ c) =? 0 then
        '(cardType, err) <- determineCardType c ;;
        Returned (setType c (name cardType), appendErr err errs)
      else Returned (c, errs)) ;;
  let vCVV := matchCVV c in
  let errs := appendIf vCVV errs "cvv doesn't match" in
  '(validNumber, err) <- validCardNumber c ;;
  let errs := appendErr err errs in
  let errs := appendIf validNumber errs "card number is not valid" in
  Returned (mkValidation c validNumber vMonth vYear vCVV expired errs).

(** ** Auxiliary definitions for the properties of [Validate] *)

(** The errors of the three expiry checks, the first three steps. *)
Definition expiryErrors (now : Time.Time) (c : Card) : list string :=
  appendIf (isExpired now c)
    (appendIf (negb (validExpiryYear c))
       (appendIf (negb (validExpiryMonth c)) [] (monthMessage c))
       (yearMessage c))
    "creditcard is expired".

(** The fourth step, as a relation between the card before and after
    and the error it may add. *)
Inductive backfill (c : Card) : Card -> error -> Prop :=
| backfill_given :
    (Go.len (Type_ c) =? 0) = false -> backfill c c None
| backfill_classified (t : cardType) (err : error) :
    (Go.len (Type_ c) =? 0) = true ->
    determineCardType c = Returned (t, err) ->
    backfill c (setType c (name t)) err.

(** The years 1900 to 2200 and the months of one and of two digits. *)
Definition validYears : list Z := map Z.of_nat (seq 1900 301).
Definition oneDigitMonths : list Z := [1; 2; 3; 4; 5; 6; 7; 8; 9].
Definition twoDigitMonths : list Z := [10; 11; 12].

(** The time [isExpired] gets from [time.Parse] for a year and a month. *)
Definition parsedExpiry (year month : Z) : Time.Time :=
  fst (Time.Parse (Go.formatInt year ++ "-" ++ Go.formatInt month ++ "-01")%string).

(** ** The behaviour the specification describes

    Definitions written from the words of the specification, to be
    compared with the functions above. *)

(** The CVV length a network requires: 4 for American Express, 3 for
    every other network name. *)
Definition requiredCVVLength (network : string) : Z :=
  if (network =? "American Express")%string then 4 else 3.

(** The decimal digits of a number string, as numbers. *)
Definition digitsOf (number : string) : list Z :=
  map Go.digitVal (list_ascii_of_string number).

Definition allDigits (number : string) : bool :=
  forallb Go.isDigit (list_ascii_of_string number).

(** The Luhn weight of the digit at position [pos] counted from the
    right, the rightmost being at 0: every second digit, starting with
    the second from the right, is doubled, and a doubled digit above 9
    is replaced by its value modulo 10 plus 1. *)
Definition luhnWeighted (pos : nat) (digit : Z) : Z :=
  if Nat.odd pos then
    let doubled := 2 * digit in
    if 9 <? doubled then doubled mod 10 + 1 else doubled
  else digit.

(** The sum of the weighted digits of [ds], whose head is at position
    [pos] from the right. *)
Fixpoint luhnSumFrom (pos : nat) (ds : list Z) : Z :=
  match ds with
  | [] => 0
  | digit :: rest => luhnWeighted pos digit + luhnSumFrom (S pos) rest
  end.

(** The Luhn sum of a number string, scanned from its rightmost digit. *)
Definition luhnSum (number : string) : Z :=
  luhnSumFrom 0 (rev (digitsOf number)).

(** The messages of the five checks for a card, and the two texts that
    the classification and the comparison of the card type can add. *)
Definition checkMessages (c : Card) : list string :=
  [monthMessage c; yearMessage c; "creditcard is expired";
   "cvv doesn't match"; "card number is not valid"].

Definition classifierMessage : string := "unknown creditcard type".

Definition mismatchMessage : string :=
  "given card type doesn't match determined card type".

(** A number string with every byte that is not a decimal digit
    replaced by the digit 0. *)
Fixpoint zeroNonDigits (number : string) : string :=
  match number with
  | EmptyString => EmptyString
  | String ch rest =>
      String (if Go.isDigit ch then ch else "0"%char) (zeroNonDigits rest)
  end.

(** * Properties *)

(** ** The outcome monad *)

Lemma bind_Returned_inv {A B : Type} (m : outcome A) (k : A -> outcome B) (b : B) :
  bind m k = Returned b -> exists a, m = Returned a /\ k a = Returned b.
Proof.
  destruct m as [a|]; simpl; intros H; [exists a; split; [reflexivity | exact H] | discriminate].
Qed.

(** ** Prefixes and classification *)

(** What the filling loop leaves at each of the six places: the value
    [strconv.Atoi] gives for the prefix, 0 where the number is too
    short. *)
Lemma at_fillDigits (number : string) (k : nat) :
  (1 <= k <= 6)%nat ->
  at_ (fillDigits number) k =
    if (k - 1 <? String.length number)%nat
    then fst (Go.Atoi (substring 0 k number)) else 0.
Proof.
  intros Hk.
  assert (Hcases : k = 1%nat \/ k = 2%nat \/ k = 3%nat \/ k = 4%nat \/ k = 5%nat \/ k = 6%nat) by lia.
  unfold fillDigits, at_. cbn [seq fold_left Nat.add].
  destruct Hcases as [-> | [-> | [-> | [-> | [-> | ->]]]]]; cbn [Nat.sub];
    destruct (0 <? String.length number)%nat, (1 <? String.length number)%nat,
             (2 <? String.length number)%nat, (3 <? String.length number)%nat,
             (4 <? String.length number)%nat, (5 <? String.length number)%nat;
    reflexivity.
Qed.

(** The classifier reads the number only. *)
Lemma determineCardType_Number (c c' : Card) :
  Number c = Number c' -> determineCardType c = determineCardType c'.
Proof.
  unfold determineCardType. intros ->. reflexivity.
Qed.

(** The only error of the classifier is its [default] case. *)
Lemma determineCardType_error (c : Card) (t : cardType) (e : string) :
  determineCardType c = Returned (t, Some e) ->
  t = Unknown /\ e = "unknown creditcard type".
Proof.
  unfold determineCardType.
  destruct (beforeMaestro _ _); [intros H; inversion H |].
  destruct (caseMaestroHead _); [intros H; inversion H |].
  destruct (Go.sliceTo _ _) as [first3|]; cbn [bind]; [| discriminate].
  destruct (caseMaestroTail _ _); [intros H; inversion H |].
  unfold afterMaestro.
  repeat match goal with
         | |- context [if ?b then _ else _] => destruct b
         end;
    intros H; inversion H; split; reflexivity.
Qed.

(** A string of three bytes is never the four-byte literal. *)
Lemma sliceTo_3_not_0604 (number first3 : string) :
  Go.sliceTo number 3 = Returned first3 -> (first3 =? "0604")%string = false.
Proof.
  unfold Go.sliceTo.
  destruct (3 <=? String.length number)%nat eqn:Hlen; [| discriminate].
  intros H; inversion H; subst first3; clear H.
  apply Nat.leb_le in Hlen.
  destruct number as [|a [|b [|c0 rest]]]; simpl in Hlen; try lia.
  apply String.eqb_neq. intros H.
  destruct rest; simpl in H; inversion H.
Qed.

(** The classifier panics exactly on a number shorter than three bytes
    that none of the cases before the slice expression takes. *)
Lemma determineCardType_panics_iff (c : Card) :
  determineCardType c = Panicked <->
  (String.length (Number c) < 3)%nat /\
  beforeMaestro (fillDigits (Number c)) (Go.len (Number c)) = None /\
  caseMaestroHead (fillDigits (Number c)) = false.
Proof.
  unfold determineCardType, Go.sliceTo.
  destruct (beforeMaestro _ _) eqn:Hb.
  { split; [discriminate | intros (_ & H & _); discriminate]. }
  destruct (caseMaestroHead _) eqn:Hh.
  { split; [discriminate | intros (_ & _ & H); discriminate]. }
  destruct (3 <=? String.length (Number c))%nat eqn:Hlen; cbn [bind].
  - apply Nat.leb_le in Hlen.
    split; [| intros (H & _); lia].
    destruct (caseMaestroTail _ _); discriminate.
  - apply Nat.leb_gt in Hlen. split; [intros _; repeat split; assumption | reflexivity].
Qed.

(** On a number of three bytes or more the classifier returns. *)
Lemma determineCardType_returns (c : Card) :
  (3 <= String.length (Number c))%nat ->
  exists r, determineCardType c = Returned r.
Proof.
  intros Hlen.
  destruct (determineCardType c) as [r|] eqn:H; [exists r; reflexivity |].
  apply determineCardType_panics_iff in H. lia.
Qed.

(** The numbers of the package's test, each with the card type the
    test expects. *)
Example determineCardType_test_cards :
  map (fun number => determineCardType (mkCard "" number 11 2020 "1234"))
    ["5019717010103742"; "378282246310005"; "655021246310005"; "604201246310005";
     "384140246310005"; "560221246310005"; "620221246310005"; "300221246310005";
     "201421246310005"; "39022124631000"; "601121246310005"; "63612124631000500";
     "6371212463100050"; "501821246310005"; "511821246310005"; "351821246310005";
     "508821246310005"; "402621246310005"; "409921246310005"]
  = map (fun t => Returned (t, None))
    [Dankort; AmericanExpress; Elo; Cabal; Hipercard; Bankcard; ChinaUnionPay;
     DinersClubCarteBlanche; DinersClubEnroute; DinersClubInternational; Discover;
     InterPayment; InstaPayment; Maestro; Mastercard; JCB; Aura; VisaElectron; Visa].
Proof. reflexivity. Qed.

(** A number whose four-digit prefix is in the Maestro list is
    classified as Maestro, unless a case before Maestro takes it. *)
Lemma determineCardType_Maestro_prefix (c : Card) :
  beforeMaestro (fillDigits (Number c)) (Go.len (Number c)) = None ->
  In (at_ (fillDigits (Number c)) 4)
     [5018; 5020; 5038; 5612; 5893; 6304; 6759; 6761; 6762; 6763; 6390] ->
  determineCardType c = Returned (Maestro, None).
Proof.
  intros Hb Hin. unfold determineCardType. rewrite Hb.
  destruct (caseMaestroHead _) eqn:Hh; [reflexivity |].
  assert (H4 : at_ (fillDigits (Number c)) 4 = 6390).
  { unfold caseMaestroHead in Hh. simpl in Hin.
    repeat (destruct Hin as [Hin | Hin];
            [ try (rewrite <- Hin in Hh; simpl in Hh;
                   rewrite ?orb_true_r in Hh; discriminate) |]);
      [symmetry; exact Hin | contradiction]. }
  assert (Hlen : (3 <=? String.length (Number c))%nat = true).
  { rewrite at_fillDigits in H4 by lia. cbn [Nat.sub] in H4.
    destruct (3 <? String.length (Number c))%nat eqn:Hlt; [| discriminate].
    apply Nat.ltb_lt in Hlt. apply Nat.leb_le. lia. }
  unfold Go.sliceTo, caseMaestroTail. rewrite Hlen. cbn [bind].
  rewrite H4, orb_true_r. reflexivity.
Qed.

(** C1 (the code departs from it).  [Validate] does not return on
    every card: on the empty [Number], whatever the other fields and the
    time, the slice [c.Number[:3]] of the Maestro case is out of range
    and the call panics. *)
Theorem Validate_panics_on_empty_Number (now : Time.Time) (ty cvv : string) (month year : Z) :
  determineCardType (mkCard ty "" month year cvv) = Panicked /\
  Validate now (mkCard ty "" month year cvv) = Panicked.
Proof.
  split; [reflexivity |].
  unfold Validate.
  destruct (Go.len (Type_ (mkCard ty "" month year cvv)) =? 0); reflexivity.
Qed.

(** C6 (the code departs from it).  The number "0604000000000000"
    starts with the four characters "0604" and no case from Elo to
    InstaPayment takes it, yet the classifier does not return Maestro:
    the case compares the three-byte slice [c.Number[:3]], here "060",
    with "0604", and the number falls through to the [default]. *)
Theorem determineCardType_0604_not_Maestro :
  let c := mkCard "" "0604000000000000" 11 2020 "123" in
  substring 0 4 (Number c) = "0604" /\
  beforeMaestro (fillDigits (Number c)) (Go.len (Number c)) = None /\
  Go.sliceTo (Number c) 3 = Returned "060" /\
  determineCardType c = Returned (Unknown, Some "unknown creditcard type").
Proof.
  repeat split; reflexivity.
Qed.

(** [strconv.Atoi] on a digit followed by a byte that is not a digit:
    a syntax error, and the value 0. *)
Lemma Atoi_4_nondigit (x : ascii) (rest : string) :
  Go.isDigit x = false -> Go.Atoi (String "4" (String x rest)) = (0, true).
Proof.
  intros Hx. unfold Go.Atoi.
  change (Ascii.eqb "4" "-") with false. change (Ascii.eqb "4" "+") with false.
  cbn [orb]. cbv beta iota zeta.
  cbn [Go.digitsValue]. change (Go.isDigit "4") with true. cbv iota.
  rewrite Hx. reflexivity.
Qed.

(** C10.  A number of three bytes or more that starts with '4'
    followed by a byte that is not a digit: every prefix of two to six
    bytes that the number has fails [strconv.Atoi], the places 2 to 6 of
    [ccDigits] hold 0 and the first holds 4, no case before Visa
    matches, and the classifier returns Visa without an error. *)
Theorem determineCardType_4_nondigit_Visa (c : Card) (x : ascii) :
  (3 <= String.length (Number c))%nat ->
  String.get 0 (Number c) = Some "4"%char ->
  String.get 1 (Number c) = Some x ->
  Go.isDigit x = false ->
  let d := fillDigits (Number c) in
  (forall k, (2 <= k <= 6)%nat -> (k <= String.length (Number c))%nat ->
             Go.Atoi (substring 0 k (Number c)) = (0, true)) /\
  (forall k, (2 <= k <= 6)%nat -> at_ d k = 0) /\
  at_ d 1 = 4 /\
  beforeMaestro d (Go.len (Number c)) = None /\
  caseMaestroHead d = false /\
  (exists first3, Go.sliceTo (Number c) 3 = Returned first3 /\
                  caseMaestroTail d first3 = false) /\
  caseDankort d = false /\ caseMastercard d = false /\ caseJCB d = false /\
  caseAura d = false /\ caseVisaElectron d = false /\
  caseVisa d = true /\
  determineCardType c = Returned (Visa, None).
Proof.
  intros Hlen H0 H1 Hx d.
  destruct c as [ty number month year cvv]. cbn [Number] in *.
  destruct number as [|a [|b [|y rest]]]; cbn [String.length] in Hlen; try lia.
  cbn in H0, H1. inversion H0; subst a. inversion H1; subst b. clear H0 H1 Hlen.
  assert (Hpre : forall k, (2 <= k <= 6)%nat ->
            Go.Atoi (substring 0 k (String "4" (String x (String y rest)))) = (0, true)).
  { intros k Hk. destruct k as [|[|k]]; try lia.
    cbn [substring]. apply Atoi_4_nondigit; exact Hx. }
  assert (Hat : forall k, (2 <= k <= 6)%nat -> at_ d k = 0).
  { intros k Hk. unfold d. rewrite at_fillDigits by lia.
    destruct (_ <? _)%nat; [rewrite Hpre by lia |]; reflexivity. }
  assert (Hat1 : at_ d 1 = 4).
  { unfold d. rewrite at_fillDigits by lia. reflexivity. }
  assert (H2 := Hat 2%nat ltac:(lia)). assert (H3 := Hat 3%nat ltac:(lia)).
  assert (H4 := Hat 4%nat ltac:(lia)). assert (H6 := Hat 6%nat ltac:(lia)).
  assert (Hslice : Go.sliceTo (String "4" (String x (String y rest))) 3
                   = Returned (String "4" (String x (String y ""))))
    by (unfold Go.sliceTo; cbn; destruct rest; reflexivity).
  assert (Hb : beforeMaestro d (Go.len (String "4" (String x (String y rest)))) = None).
  { unfold beforeMaestro, caseElo, caseCabal, caseHipercard, caseAmericanExpress,
      caseBankcard, caseChinaUnionPay, caseDinersClubCarteBlanche,
      caseDinersClubEnroute, caseDinersClubInternational, caseDiscover,
      caseInterPayment, caseInstaPayment.
    rewrite H2, H3, H4, H6. reflexivity. }
  assert (Hh : caseMaestroHead d = false)
    by (unfold caseMaestroHead; rewrite H4; reflexivity).
  assert (Ht : caseMaestroTail d (String "4" (String x (String y ""))) = false)
    by (unfold caseMaestroTail; rewrite H4; reflexivity).
  assert (Ha : afterMaestro d = (Visa, None)).
  { unfold afterMaestro, caseDankort, caseMastercard, caseJCB, caseAura,
      caseVisaElectron, caseVisa.
    rewrite H2, H4, H6, Hat1. reflexivity. }
  repeat split.
  - intros k Hk _. apply Hpre; exact Hk.
  - exact Hat.
  - exact Hat1.
  - exact Hb.
  - exact Hh.
  - eexists; split; [exact Hslice | exact Ht].
  - unfold caseDankort; rewrite H4; reflexivity.
  - unfold caseMastercard; rewrite H2; reflexivity.
  - unfold caseJCB; rewrite H2; reflexivity.
  - unfold caseAura; rewrite H2; reflexivity.
  - unfold caseVisaElectron; rewrite H4, H6; reflexivity.
  - unfold caseVisa; rewrite Hat1; reflexivity.
  - unfold determineCardType. cbn [Number]. fold d.
    rewrite Hb, Hh, Hslice. cbn [bind]. rewrite Ht, Ha. reflexivity.
Qed.

(** The card "4x1" of C10: three bytes, '4', then the letter 'x'. *)
Lemma determineCardType_4_nondigit_Visa_witness :
  determineCardType (mkCard "" "4x1" 11 2020 "123") = Returned (Visa, None).
Proof.
  apply (determineCardType_4_nondigit_Visa (mkCard "" "4x1" 11 2020 "123") "x"%char);
    [cbn; lia | reflexivity | reflexivity | reflexivity].
Defined.

(** ** The assembly of the result by [Validate] *)

Lemma In_appendIf (b : bool) (errs : list string) (m x : string) :
  In x (appendIf b errs m) <-> In x errs \/ (b = true /\ x = m).
Proof.
  unfold appendIf. destruct b.
  - rewrite in_app_iff. simpl. intuition congruence.
  - intuition congruence.
Qed.

Lemma In_appendErr (err : error) (errs : list string) (x : string) :
  In x (appendErr err errs) <-> In x errs \/ err = Some x.
Proof.
  unfold appendErr. destruct err as [m|].
  - rewrite in_app_iff. simpl. intuition congruence.
  - intuition congruence.
Qed.

(** What a returning call of [Validate] has computed. *)
Lemma Validate_inv (now : Time.Time) (c : Card) (v : Validation) :
  Validate now c = Returned v ->
  exists (c' : Card) (err1 : error) (validNumber : bool) (err2 : error),
    backfill c c' err1 /\
    validCardNumber c' = Returned (validNumber, err2) /\
    v = mkValidation c' validNumber (validExpiryMonth c) (validExpiryYear c)
          (matchCVV c') (isExpired now c)
          (appendIf validNumber
             (appendErr err2
                (appendIf (matchCVV c') (appendErr err1 (expiryErrors now c))
                   "cvv doesn't match"))
             "card number is not valid").
Proof.
  unfold Validate. intros H.
  apply bind_Returned_inv in H. destruct H as ([c' errs] & Hstep & H).
  apply bind_Returned_inv in H. destruct H as ([validNumber err2] & Hnum & H).
  inversion H; subst v; clear H.
  destruct (Go.len (Type_ c) =? 0) eqn:Hty.
  - apply bind_Returned_inv in Hstep. destruct Hstep as ([t err1] & Hdet & Hstep).
    inversion Hstep; subst c' errs; clear Hstep.
    exists (setType c (name t)), err1, validNumber, err2.
    split; [apply backfill_classified; assumption |].
    split; [exact Hnum | reflexivity].
  - inversion Hstep; subst c' errs; clear Hstep.
    exists c, None, validNumber, err2.
    split; [apply backfill_given; assumption |].
    split; [exact Hnum | reflexivity].
Qed.

(** The fourth step writes the [Type] only. *)
Lemma backfill_fields (c c' : Card) (err : error) :
  backfill c c' err ->
  Number c' = Number c /\ CVV c' = CVV c /\
  ExpiryMonth c' = ExpiryMonth c /\ ExpiryYear c' = ExpiryYear c.
Proof.
  intros [H | t e H1 H2]; repeat split; reflexivity.
Qed.

(** [validCardNumber] returns one of three things. *)
Lemma validCardNumber_inv (c : Card) (validNumber : bool) (err : error) :
  validCardNumber c = Returned (validNumber, err) ->
  (validNumber = false /\ err = Some "unknown creditcard type") \/
  (validNumber = false /\
   err = Some "given card type doesn't match determined card type") \/
  (validNumber = validateLuhn c /\ err = None /\
   exists t, determineCardType c = Returned (t, None) /\ name t = Type_ c).
Proof.
  unfold validCardNumber. intros H.
  apply bind_Returned_inv in H. destruct H as ([t e] & Hdet & H).
  cbv beta iota zeta in H.
  destruct e as [m|].
  - apply determineCardType_error in Hdet. destruct Hdet as [_ ->].
    inversion H. left. split; reflexivity.
  - destruct (name t =? Type_ c)%string eqn:Heq; cbn [negb] in H; inversion H.
    + right; right. repeat split. exists t. split; [exact Hdet |].
      apply String.eqb_eq; exact Heq.
    + right; left. split; reflexivity.
Qed.

(** [Validate] returns whenever the classifier does, ... *)
Lemma Validate_returns_of_classified (now : Time.Time) (c : Card) (r : cardType * error) :
  determineCardType c = Returned r ->
  exists v, Validate now c = Returned v.
Proof.
  destruct r as [t err]. intros Hdet. unfold Validate.
  destruct (Go.len (Type_ c) =? 0).
  - rewrite Hdet. cbn [bind]. cbv beta iota zeta.
    unfold validCardNumber.
    rewrite (determineCardType_Number (setType c (name t)) c) by reflexivity.
    rewrite Hdet. cbn [bind]. cbv beta iota zeta.
    destruct err; [| destruct (negb _)]; cbn [bind]; eexists; reflexivity.
  - cbn [bind]. cbv beta iota zeta. unfold validCardNumber.
    rewrite Hdet. cbn [bind]. cbv beta iota zeta.
    destruct err; [| destruct (negb _)]; cbn [bind]; eexists; reflexivity.
Qed.

(** ... so on every number of three bytes or more. *)
Lemma Validate_returns (now : Time.Time) (c : Card) :
  (3 <= String.length (Number c))%nat ->
  exists v, Validate now c = Returned v.
Proof.
  intros Hlen. destruct (determineCardType_returns c Hlen) as [r Hdet].
  exact (Validate_returns_of_classified now c r Hdet).
Qed.

(** The texts are pairwise distinct, whatever the month and the year. *)
Ltac distinct_texts :=
  unfold monthMessage, yearMessage, classifierMessage, mismatchMessage in *;
  cbn [append] in *; discriminate.

(** Membership in the error list of a returning call: one text per
    check, under the condition of that check, and besides them only
    errors of the classifier or of the comparison of the card type. *)
Lemma In_Errors (now : Time.Time) (c : Card) (v : Validation) :
  Validate now c = Returned v ->
  exists extras : list string,
    (forall x, In x extras -> x = classifierMessage \/ x = mismatchMessage) /\
    forall x, In x (Errors v) <->
      (ValidExpiryMonth v = false /\ x = monthMessage c) \/
      (ValidExpiryYear v = false /\ x = yearMessage c) \/
      (IsExpired v = true /\ x = "creditcard is expired") \/
      (ValidCVV v = true /\ x = "cvv doesn't match") \/
      (ValidCardNumber v = true /\ x = "card number is not valid") \/
      In x extras.
Proof.
  intros H. apply Validate_inv in H.
  destruct H as (c' & err1 & validNumber & err2 & Hback & Hnum & ->).
  exists (appendErr err2 (appendErr err1 [])). split.
  - intros x Hx. apply In_appendErr in Hx. destruct Hx as [Hx | Hx].
    + apply In_appendErr in Hx. destruct Hx as [[] | Hx].
      destruct Hback as [_ | t err _ Hdet]; [discriminate |].
      subst err. apply determineCardType_error in Hdet. left. apply Hdet.
    + apply validCardNumber_inv in Hnum.
      destruct Hnum as [[_ He] | [[_ He] | (_ & He & _)]]; rewrite He in Hx;
        inversion Hx; [left | right]; reflexivity.
  - intros x. cbn [Errors ValidExpiryMonth ValidExpiryYear IsExpired ValidCVV ValidCardNumber].
    unfold expiryErrors.
    repeat (rewrite In_appendIf || rewrite In_appendErr).
    rewrite ?negb_true_iff.
    cbn [In]. tauto.
Qed.

(** C2, as the specification states it, fails: the American Express
    test card with the four-digit CVV "1234" has [ValidCVV] true, while
    the length of its CVV equals the required length 4. *)
Lemma ValidCVV_stated_polarity_fails :
  ~ (forall (now : Time.Time) (c : Card) (v : Validation),
       Validate now c = Returned v ->
       (ValidCVV v = true <->
        Go.len (CVV c) <> requiredCVVLength (Type_ (Card_ v))) /\
       (In "cvv doesn't match" (Errors v) <-> ValidCVV v = true)).
Proof.
  intros H.
  destruct (H (Time.Date 2020 1 15) (mkCard "" "378282246310005" 11 2020 "1234") _ eq_refl)
    as [[Hflag _] _].
  apply Hflag; reflexivity.
Qed.

(** C2, amended.  In the result of [Validate], [ValidCVV] is true
    exactly when the length of the CVV equals the required length: 4
    when the network name, after the fourth step has filled it in, is
    "American Express", 3 for every other name. *)
Theorem ValidCVV_iff_length_matches (now : Time.Time) (c : Card) (v : Validation) :
  Validate now c = Returned v ->
  (ValidCVV v = true <-> Go.len (CVV c) = requiredCVVLength (Type_ (Card_ v))).
Proof.
  intros H. apply Validate_inv in H.
  destruct H as (c' & err1 & validNumber & err2 & Hback & _ & ->).
  apply backfill_fields in Hback. destruct Hback as (_ & Hcvv & _).
  cbn [ValidCVV Card_]. unfold matchCVV, requiredCVVLength. rewrite Hcvv.
  destruct (Type_ c' =? "American Express")%string; apply Z.eqb_eq.
Qed.

(** The American Express test card with the CVV "1234", and the same
    card with the CVV "123". *)
Lemma ValidCVV_iff_length_matches_witness :
  (exists v, Validate (Time.Date 2020 1 15) (mkCard "" "378282246310005" 11 2020 "1234")
             = Returned v /\ ValidCVV v = true) /\
  (exists v, Validate (Time.Date 2020 1 15) (mkCard "" "378282246310005" 11 2020 "123")
             = Returned v /\ ValidCVV v <> true).
Proof.
  split; eexists; (split; [reflexivity |]).
  - apply (ValidCVV_iff_length_matches (Time.Date 2020 1 15)
             (mkCard "" "378282246310005" 11 2020 "1234") _ eq_refl).
    reflexivity.
  - intros H.
    apply (ValidCVV_iff_length_matches (Time.Date 2020 1 15)
             (mkCard "" "378282246310005" 11 2020 "123") _ eq_refl) in H.
    vm_compute in H. discriminate.
Defined.

(** C4 (the code departs from it).  The network of the test card is
    written back as "Dankort", with the year 2019 as with 2020; but with
    the year 2020 the error list is not empty, at any time: the number
    passes the Luhn check, [ValidCardNumber] is true, and [Validate]
    appends "card number is not valid" when that flag is true.  In
    January 2020 it is the only error. *)
Theorem Validate_Dankort_test_card (now : Time.Time) :
  (exists v, Validate now (mkCard "" "5019717010103742" 11 2019 "1234") = Returned v /\
             Type_ (Card_ v) = "Dankort") /\
  (exists v, Validate now (mkCard "" "5019717010103742" 11 2020 "1234") = Returned v /\
             Type_ (Card_ v) = "Dankort" /\
             validateLuhn (Card_ v) = true /\ ValidCardNumber v = true /\
             In "card number is not valid" (Errors v) /\ Errors v <> []) /\
  (exists v, Validate (Time.Date 2020 1 15) (mkCard "" "5019717010103742" 11 2020 "1234")
             = Returned v /\
             Errors v = ["card number is not valid"]).
Proof.
  split; [| split].
  - unfold Validate. generalize (isExpired now (mkCard "" "5019717010103742" 11 2019 "1234")).
    intros e. eexists. split; [vm_compute; reflexivity | reflexivity].
  - unfold Validate. generalize (isExpired now (mkCard "" "5019717010103742" 11 2020 "1234")).
    intros e. eexists. split; [vm_compute; reflexivity |].
    cbn [Card_ Type_ ValidCardNumber Errors].
    repeat split.
    + destruct e; cbn; tauto.
    + destruct e; discriminate.
  - eexists. split; [vm_compute; reflexivity | reflexivity].
Qed.

(** C5, as the specification states it, fails: on the number
    "0000000000", which the classifier rejects, [Validate] does not
    leave the network field empty. *)
Lemma backfill_leaves_Type_empty_fails :
  ~ (forall (now : Time.Time) (c : Card) (v : Validation) (t : cardType) (err : error),
       Type_ c = "" ->
       determineCardType c = Returned (t, err) ->
       Validate now c = Returned v ->
       match err with
       | Some m => In m (Errors v) /\ Type_ (Card_ v) = ""
       | None => Type_ (Card_ v) = name t
       end).
Proof.
  intros H.
  destruct (H (Time.Date 2020 1 15) (mkCard "" "0000000000" 11 2020 "1234")
              _ Unknown (Some "unknown creditcard type") eq_refl eq_refl eq_refl)
    as [_ Hty].
  vm_compute in Hty. discriminate.
Qed.

(** C5, amended.  On a card whose [Type] is empty, [Validate] runs the
    classifier and writes the display name of the card type it returns
    into the card: the name of the network when the classification
    succeeds, and "Unknown Card", the name of [Unknown], when it fails,
    in which case the classifier's message is in the error list. *)
Theorem Validate_backfills_Type (now : Time.Time) (c : Card) (t : cardType) (err : error) :
  Type_ c = "" ->
  determineCardType c = Returned (t, err) ->
  exists v, Validate now c = Returned v /\
            Type_ (Card_ v) = name t /\
            match err with
            | Some m => In m (Errors v) /\ m = "unknown creditcard type" /\
                        Type_ (Card_ v) = "Unknown Card"
            | None => True
            end.
Proof.
  intros Hty Hdet.
  destruct (Validate_returns_of_classified now c _ Hdet) as [v Hv].
  exists v. split; [exact Hv |].
  apply Validate_inv in Hv.
  destruct Hv as (c' & err1 & validNumber & err2 & Hback & Hnum & ->).
  cbn [Card_ Errors].
  destruct Hback as [Hne | t' err' _ Hdet'].
  { rewrite Hty in Hne. discriminate. }
  rewrite Hdet in Hdet'. inversion Hdet'; subst t' err'. clear Hdet'.
  split; [reflexivity |].
  destruct err as [m|]; [| exact I].
  apply determineCardType_error in Hdet. destruct Hdet as [-> ->].
  repeat split.
  apply In_appendIf. left. apply In_appendErr. left.
  apply In_appendIf. left. apply In_appendErr. right. reflexivity.
Qed.

(** The number "0000000000", which the classifier rejects. *)
Lemma Validate_backfills_Type_witness :
  exists v, Validate (Time.Date 2020 1 15) (mkCard "" "0000000000" 11 2020 "1234") = Returned v /\
            Type_ (Card_ v) = "Unknown Card" /\
            In "unknown creditcard type" (Errors v).
Proof.
  destruct (Validate_backfills_Type (Time.Date 2020 1 15)
              (mkCard "" "0000000000" 11 2020 "1234")
              Unknown (Some "unknown creditcard type") eq_refl eq_refl)
    as (v & Hv & Hty & Hin & _ & _).
  exists v. split; [exact Hv |]. split; [exact Hty | exact Hin].
Defined.

(** C8, as the specification states it, fails: with the network
    "Something" given for a Dankort number, the error list holds a text
    that is neither one of the five of the checks nor the classifier's. *)
Lemma Errors_only_classifier_extra_fails :
  ~ (forall (now : Time.Time) (c : Card) (v : Validation),
       Validate now c = Returned v ->
       (In (monthMessage c) (Errors v) <-> ValidExpiryMonth v = false) /\
       (In (yearMessage c) (Errors v) <-> ValidExpiryYear v = false) /\
       (In "creditcard is expired" (Errors v) <-> IsExpired v = true) /\
       (In "cvv doesn't match" (Errors v) <-> ValidCVV v = true) /\
       (In "card number is not valid" (Errors v) <-> ValidCardNumber v = true) /\
       (forall x, In x (Errors v) -> In x (checkMessages c) \/ x = classifierMessage)).
Proof.
  intros H.
  destruct (H (Time.Date 2019 1 15) (mkCard "Something" "5019717010103742" 11 2019 "1234")
              _ eq_refl) as (_ & _ & _ & _ & _ & Hextra).
  destruct (Hextra mismatchMessage) as [Hin | Heq].
  - cbn. left. reflexivity.
  - cbn in Hin. repeat (destruct Hin as [Hin | Hin]; [discriminate |]). exact Hin.
  - discriminate.
Qed.

(** C8, amended.  In the result of [Validate] each of the five texts
    is in the error list exactly under the condition of its flag: the
    month text iff [ValidExpiryMonth] is false, the year text iff
    [ValidExpiryYear] is false, "creditcard is expired" iff [IsExpired]
    is true, "cvv doesn't match" iff [ValidCVV] is true, "card number is
    not valid" iff [ValidCardNumber] is true; and any other text in the
    list is the classifier's failure text or the text of the mismatch
    between the given and the determined card type. *)
Theorem Errors_reflect_flags (now : Time.Time) (c : Card) (v : Validation) :
  Validate now c = Returned v ->
  (In (monthMessage c) (Errors v) <-> ValidExpiryMonth v = false) /\
  (In (yearMessage c) (Errors v) <-> ValidExpiryYear v = false) /\
  (In "creditcard is expired" (Errors v) <-> IsExpired v = true) /\
  (In "cvv doesn't match" (Errors v) <-> ValidCVV v = true) /\
  (In "card number is not valid" (Errors v) <-> ValidCardNumber v = true) /\
  (forall x, In x (Errors v) ->
             In x (checkMessages c) \/ x = classifierMessage \/ x = mismatchMessage).
Proof.
  intros H. destruct (In_Errors now c v H) as (extras & Hextras & Hin).
  assert (Hno : forall x, In x extras ->
                  x <> monthMessage c /\ x <> yearMessage c /\
                  x <> "creditcard is expired" /\ x <> "cvv doesn't match" /\
                  x <> "card number is not valid").
  { intros x Hx. destruct (Hextras x Hx) as [-> | ->];
      repeat split; intros Habs; distinct_texts. }
  repeat split.
  - intros Hm. apply Hin in Hm.
    destruct Hm as [[Hf _] | [[_ Habs] | [[_ Habs] | [[_ Habs] | [[_ Habs] | Hx]]]]];
      [exact Hf | distinct_texts .. | apply Hno in Hx; tauto].
  - intros Hf. apply Hin. left. split; [exact Hf | reflexivity].
  - intros Hm. apply Hin in Hm.
    destruct Hm as [[_ Habs] | [[Hf _] | [[_ Habs] | [[_ Habs] | [[_ Habs] | Hx]]]]];
      [distinct_texts | exact Hf | distinct_texts .. | apply Hno in Hx; tauto].
  - intros Hf. apply Hin. right; left. split; [exact Hf | reflexivity].
  - intros Hm. apply Hin in Hm.
    destruct Hm as [[_ Habs] | [[_ Habs] | [[Hf _] | [[_ Habs] | [[_ Habs] | Hx]]]]];
      [distinct_texts | distinct_texts | exact Hf | distinct_texts ..
      | apply Hno in Hx; tauto].
  - intros Hf. apply Hin. right; right; left. split; [exact Hf | reflexivity].
  - intros Hm. apply Hin in Hm.
    destruct Hm as [[_ Habs] | [[_ Habs] | [[_ Habs] | [[Hf _] | [[_ Habs] | Hx]]]]];
      [distinct_texts | distinct_texts | distinct_texts | exact Hf | distinct_texts
      | apply Hno in Hx; tauto].
  - intros Hf. apply Hin. right; right; right; left. split; [exact Hf | reflexivity].
  - intros Hm. apply Hin in Hm.
    destruct Hm as [[_ Habs] | [[_ Habs] | [[_ Habs] | [[_ Habs] | [[Hf _] | Hx]]]]];
      [distinct_texts | distinct_texts | distinct_texts | distinct_texts | exact Hf
      | apply Hno in Hx; tauto].
  - intros Hf. apply Hin. right; right; right; right; left.
    split; [exact Hf | reflexivity].
  - intros x Hx. apply Hin in Hx. unfold checkMessages. cbn [In].
    destruct Hx as [[_ ->] | [[_ ->] | [[_ ->] | [[_ ->] | [[_ ->] | Hx]]]]];
      [tauto .. |].
    destruct (Hextras x Hx) as [-> | ->]; tauto.
Qed.

(** The test card with the network "Something": the mismatch text is
    in its error list, and the flag of the card number is false. *)
Lemma Errors_reflect_flags_witness :
  exists v, Validate (Time.Date 2019 1 15)
              (mkCard "Something" "5019717010103742" 11 2019 "1234") = Returned v /\
            In mismatchMessage (Errors v) /\
            (In "card number is not valid" (Errors v) <-> ValidCardNumber v = true).
Proof.
  eexists. split; [reflexivity |]. split; [cbn; left; reflexivity |].
  apply (Errors_reflect_flags (Time.Date 2019 1 15)
           (mkCard "Something" "5019717010103742" 11 2019 "1234") _ eq_refl).
Defined.

(** C9.  On a card whose [Type] is empty and whose number the
    classifier accepts, [Validate] returns, the mismatch text is not in
    the error list, and [ValidCardNumber] is the result of the Luhn
    check on the number. *)
Theorem Validate_backfilled_Type_matches (now : Time.Time) (c : Card) (t : cardType) :
  Type_ c = "" ->
  determineCardType c = Returned (t, None) ->
  exists v, Validate now c = Returned v /\
            ~ In mismatchMessage (Errors v) /\
            ValidCardNumber v = validateLuhn c.
Proof.
  intros Hty Hdet.
  destruct (Validate_returns_of_classified now c _ Hdet) as [v Hv].
  exists v. split; [exact Hv |].
  apply Validate_inv in Hv.
  destruct Hv as (c' & err1 & validNumber & err2 & Hback & Hnum & ->).
  destruct Hback as [Hne | t' err' _ Hdet'].
  { rewrite Hty in Hne. discriminate. }
  rewrite Hdet in Hdet'. inversion Hdet'; subst t' err'. clear Hdet'.
  unfold validCardNumber in Hnum.
  rewrite (determineCardType_Number (setType c (name t)) c) in Hnum by reflexivity.
  rewrite Hdet in Hnum. cbn [bind] in Hnum. cbv beta iota zeta in Hnum.
  cbn [setType Type_] in Hnum. rewrite String.eqb_refl in Hnum. cbn [negb] in Hnum.
  inversion Hnum; subst validNumber err2. clear Hnum.
  cbn [Errors ValidCardNumber]. split; [| reflexivity].
  unfold expiryErrors.
  repeat (rewrite In_appendIf || rewrite In_appendErr). cbn [In].
  intros Hin.
  repeat match goal with
         | H : _ \/ _ |- _ => destruct H
         | H : _ /\ _ |- _ => destruct H
         | H : False |- _ => destruct H
         end; distinct_texts.
Qed.

(** The Dankort test card without a network. *)
Lemma Validate_backfilled_Type_matches_witness :
  exists v, Validate (Time.Date 2020 1 15) (mkCard "" "5019717010103742" 11 2020 "1234")
            = Returned v /\
            ~ In mismatchMessage (Errors v) /\
            ValidCardNumber v = validateLuhn (mkCard "" "5019717010103742" 11 2020 "1234").
Proof.
  exact (Validate_backfilled_Type_matches (Time.Date 2020 1 15)
           (mkCard "" "5019717010103742" 11 2020 "1234") Dankort eq_refl eq_refl).
Defined.

(** ** Expiration *)

(** A card with an invalid month or an invalid year is expired. *)
Lemma isExpired_invalid (now : Time.Time) (c : Card) :
  validExpiryMonth c = false \/ validExpiryYear c = false ->
  isExpired now c = true.
Proof.
  unfold isExpired. intros [-> | ->]; [| rewrite orb_true_r]; reflexivity.
Qed.

Lemma In_validYears (year : Z) : 1900 <= year <= 2200 -> In year validYears.
Proof.
  intros H. unfold validYears. rewrite <- (Z2Nat.id year) by lia.
  apply in_map. apply in_seq. lia.
Qed.

(** The date [isExpired] formats with [%d-%d-01] has a month of one
    digit for the months 1 to 9, which the layout [2006-01-02] refuses:
    [time.Parse] fails, and the time compared with [now] is the zero
    time. *)
Lemma parsedExpiry_one_digit_month (year month : Z) :
  1900 <= year <= 2200 -> 1 <= month <= 9 ->
  parsedExpiry year month = Time.zero.
Proof.
  intros Hy Hm.
  assert (Hall : forallb (fun y => forallb (fun m => parsedExpiry y m =? Time.zero)
                                     oneDigitMonths) validYears = true)
    by (vm_compute; reflexivity).
  rewrite forallb_forall in Hall. specialize (Hall year (In_validYears year Hy)).
  rewrite forallb_forall in Hall. apply Z.eqb_eq. apply Hall.
  unfold oneDigitMonths. cbn [In]. lia.
Qed.

(** For the months 10 to 12 the date is parsed, as the first of the
    month. *)
Lemma parsedExpiry_two_digit_month (year month : Z) :
  1900 <= year <= 2200 -> 10 <= month <= 12 ->
  parsedExpiry year month = Time.Date year month 1.
Proof.
  intros Hy Hm.
  assert (Hall : forallb (fun y => forallb (fun m => parsedExpiry y m =? Time.Date y m 1)
                                     twoDigitMonths) validYears = true)
    by (vm_compute; reflexivity).
  rewrite forallb_forall in Hall. specialize (Hall year (In_validYears year Hy)).
  rewrite forallb_forall in Hall. apply Z.eqb_eq. apply Hall.
  unfold twoDigitMonths. cbn [In]. lia.
Qed.

Lemma valid_expiry_bounds (c : Card) :
  validExpiryMonth c = true -> validExpiryYear c = true ->
  1 <= ExpiryMonth c <= 12 /\ 1900 <= ExpiryYear c <= 2200.
Proof.
  unfold validExpiryMonth, validExpiryYear.
  destruct (ExpiryMonth c <? 1) eqn:H1, (12 <? ExpiryMonth c) eqn:H2,
           (ExpiryYear c <? 1900) eqn:H3, (ExpiryYear c >? 2200) eqn:H4;
    cbn [orb]; try discriminate; intros _ _.
  apply Z.ltb_ge in H1, H2, H3. rewrite Z.gtb_ltb in H4. apply Z.ltb_ge in H4. lia.
Qed.

(** With a valid year and a month from 10 to 12, the card is expired
    exactly when the first of that month is before [now]. *)
Lemma isExpired_two_digit_month (now : Time.Time) (c : Card) :
  validExpiryYear c = true -> 10 <= ExpiryMonth c <= 12 ->
  isExpired now c = Time.Before (Time.Date (ExpiryYear c) (ExpiryMonth c) 1) now.
Proof.
  intros Hy Hm.
  assert (Hvm : validExpiryMonth c = true).
  { unfold validExpiryMonth.
    destruct (ExpiryMonth c <? 1) eqn:H1; [apply Z.ltb_lt in H1; lia |].
    destruct (12 <? ExpiryMonth c) eqn:H2; [apply Z.ltb_lt in H2; lia | reflexivity]. }
  destruct (valid_expiry_bounds c Hvm Hy) as [_ Hyb].
  unfold isExpired. rewrite Hvm, Hy. cbn [negb orb].
  fold (parsedExpiry (ExpiryYear c) (ExpiryMonth c)).
  rewrite parsedExpiry_two_digit_month by assumption. reflexivity.
Qed.

(** With a valid year and a month from 1 to 9, the card is expired at
    any time after the zero time, whatever the year. *)
Lemma isExpired_one_digit_month (now : Time.Time) (c : Card) :
  validExpiryYear c = true -> 1 <= ExpiryMonth c <= 9 ->
  isExpired now c = Time.Before Time.zero now.
Proof.
  intros Hy Hm.
  assert (Hvm : validExpiryMonth c = true).
  { unfold validExpiryMonth.
    destruct (ExpiryMonth c <? 1) eqn:H1; [apply Z.ltb_lt in H1; lia |].
    destruct (12 <? ExpiryMonth c) eqn:H2; [apply Z.ltb_lt in H2; lia | reflexivity]. }
  destruct (valid_expiry_bounds c Hvm Hy) as [_ Hyb].
  unfold isExpired. rewrite Hvm, Hy. cbn [negb orb].
  fold (parsedExpiry (ExpiryYear c) (ExpiryMonth c)).
  rewrite parsedExpiry_one_digit_month by assumption. reflexivity.
Qed.

(** C3 (the code departs from it).  On November 3, 2026, a card that
    expires in May 2100 has a valid month and a valid year, and the
    first of May 2100 is not before that day; yet [Validate] reports
    [IsExpired] true: the date is formatted as "2100-5-01", which
    [time.Parse] refuses, and the zero time is compared instead. *)
Theorem isExpired_May_2100 :
  let now := Time.Date 2026 11 3 in
  let c := mkCard "" "5019717010103742" 5 2100 "123" in
  validExpiryMonth c = true /\ validExpiryYear c = true /\
  Time.Before (Time.Date (ExpiryYear c) (ExpiryMonth c) 1) now = false /\
  Time.Parse "2100-5-01" = (Time.zero, true) /\
  exists v, Validate now c = Returned v /\ IsExpired v = true.
Proof.
  repeat split; try reflexivity.
  eexists. split; [vm_compute; reflexivity | reflexivity].
Qed.

(** ** The Luhn checksum *)

(** [strconv.Atoi(string(b))] is the value of the digit [b], and 0 for
    any other byte. *)
Lemma Atoi_stringOfByte (b : ascii) :
  fst (Go.Atoi (Go.stringOfByte b)) = if Go.isDigit b then Go.digitVal b else 0.
Proof.
  destruct b as [[] [] [] [] [] [] [] []]; vm_compute; reflexivity.
Qed.

Lemma digitVal_range (b : ascii) :
  Go.isDigit b = true -> 0 <= Go.digitVal b <= 9.
Proof.
  unfold Go.isDigit, Go.digitVal. intros H.
  apply andb_true_iff in H. destruct H as [H1 H2].
  apply Z.leb_le in H1, H2. lia.
Qed.

Lemma get_nth_error (s : string) (i : nat) :
  String.get i s = nth_error (list_ascii_of_string s) i.
Proof.
  revert i. induction s as [|a s IH]; intros [|i]; cbn; auto.
Qed.

Lemma length_list_ascii_of_string (s : string) :
  List.length (list_ascii_of_string s) = String.length s.
Proof.
  induction s as [|a s IH]; cbn; [reflexivity | rewrite IH; reflexivity].
Qed.

Lemma firstn_succ_nth_error {A : Type} (l : list A) (i : nat) (x : A) :
  nth_error l i = Some x -> firstn (S i) l = (firstn i l ++ [x])%list.
Proof.
  revert i. induction l as [|a l IH]; intros [|i] H; cbn in H; try discriminate.
  - inversion H. reflexivity.
  - cbn [firstn app]. cbn [firstn] in IH. rewrite (IH i H). reflexivity.
Qed.

(** The weight of a position depends on its parity only. *)
Lemma luhnSumFrom_parity (ds : list Z) (p q : nat) :
  Nat.odd p = Nat.odd q -> luhnSumFrom p ds = luhnSumFrom q ds.
Proof.
  revert p q. induction ds as [|x ds IH]; intros p q Hpq; cbn [luhnSumFrom]; [reflexivity |].
  unfold luhnWeighted. rewrite Hpq. f_equal.
  apply IH. rewrite !Nat.odd_succ, <- !Nat.negb_odd, Hpq. reflexivity.
Qed.

(** One step of the loop on a digit: the weight of the specification,
    at an odd position when [alternate] is set. *)
Lemma luhnDigit_weighted (number : string) (i : nat) (alternate : bool) (b : ascii) :
  String.get i number = Some b -> Go.isDigit b = true ->
  luhnDigit number i alternate = luhnWeighted (Nat.b2n alternate) (Go.digitVal b).
Proof.
  intros Hget Hb. unfold luhnDigit, Go.byteAt. rewrite Hget, Atoi_stringOfByte, Hb.
  pose proof (digitVal_range b Hb) as Hr.
  unfold luhnWeighted. destruct alternate; cbn [Nat.b2n Nat.odd Nat.even negb]; [| reflexivity].
  cbv zeta. rewrite Z.gtb_ltb, (Z.mul_comm (Go.digitVal b) 2).
  rewrite Z.rem_mod_nonneg by lia. reflexivity.
Qed.

(** The loop, run over the first [k] bytes from the last of them
    down, adds to [sum] the weighted digits of these bytes. *)
Lemma luhnLoop_sum (number : string) (k : nat) (alternate : bool) (sum : Z) :
  (k <= String.length number)%nat -> allDigits number = true ->
  luhnLoop number k alternate sum =
    sum + luhnSumFrom (Nat.b2n alternate) (rev (firstn k (digitsOf number))).
Proof.
  intros Hk Hall. revert alternate sum.
  induction k as [|i IH]; intros alternate sum; cbn [luhnLoop].
  - cbn. lia.
  - destruct (nth_error (list_ascii_of_string number) i) as [b|] eqn:Hnth.
    2:{ apply nth_error_None in Hnth. rewrite length_list_ascii_of_string in Hnth. lia. }
    assert (Hb : Go.isDigit b = true).
    { unfold allDigits in Hall. rewrite forallb_forall in Hall.
      apply Hall. eapply nth_error_In; exact Hnth. }
    assert (Hds : nth_error (digitsOf number) i = Some (Go.digitVal b)).
    { unfold digitsOf. rewrite nth_error_map, Hnth. reflexivity. }
    rewrite (firstn_succ_nth_error _ _ _ Hds), rev_app_distr.
    cbn [rev app luhnSumFrom].
    rewrite IH by lia.
    rewrite (luhnDigit_weighted number i alternate b) by (rewrite ?get_nth_error; assumption).
    rewrite (luhnSumFrom_parity _ (Nat.b2n (negb alternate)) (S (Nat.b2n alternate)))
      by (destruct alternate; reflexivity).
    lia.
Qed.

(** C7.  On a number of 13 to 19 digits [validateLuhn] is true exactly
    when the Luhn sum of the specification (digits scanned from the
    right, every second one doubled starting with the second from the
    right, a doubled digit above 9 replaced by its value modulo 10 plus
    1) is a multiple of 10; on a number whose length is outside 13..19
    it is false. *)
Theorem validateLuhn_spec (c : Card) :
  (13 <= Go.len (Number c) <= 19 -> allDigits (Number c) = true ->
   (validateLuhn c = true <-> (10 | luhnSum (Number c)))) /\
  (Go.len (Number c) < 13 \/ 19 < Go.len (Number c) -> validateLuhn c = false).
Proof.
  unfold validateLuhn. split.
  - intros Hlen Hall.
    destruct (Go.len (Number c) <? 13) eqn:H1; [apply Z.ltb_lt in H1; lia |].
    destruct (Go.len (Number c) >? 19) eqn:H2;
      [rewrite Z.gtb_ltb in H2; apply Z.ltb_lt in H2; lia |].
    cbn [orb].
    rewrite luhnLoop_sum by (auto with arith).
    cbn [Nat.b2n]. rewrite Z.add_0_l.
    replace (firstn (String.length (Number c)) (digitsOf (Number c)))
      with (digitsOf (Number c)).
    2:{ symmetry. apply firstn_all2. unfold digitsOf.
        rewrite length_map, length_list_ascii_of_string. apply Nat.le_refl. }
    fold (luhnSum (Number c)).
    rewrite Z.eqb_eq. apply Z.rem_divide. discriminate.
  - intros [H | H].
    + apply Z.ltb_lt in H. rewrite H. reflexivity.
    + apply Z.ltb_lt in H. rewrite Z.gtb_ltb, H, orb_true_r. reflexivity.
Qed.

(** The Dankort test number, of 16 digits, passes; "0000000000", of 10
    digits, is refused. *)
Lemma validateLuhn_spec_witness :
  validateLuhn (mkCard "" "5019717010103742" 11 2020 "1234") = true /\
  validateLuhn (mkCard "" "0000000000" 11 2020 "1234") = false.
Proof.
  split.
  - apply (proj1 (validateLuhn_spec (mkCard "" "5019717010103742" 11 2020 "1234"))).
    + cbn. lia.
    + reflexivity.
    + exists 5. reflexivity.
  - apply (proj2 (validateLuhn_spec (mkCard "" "0000000000" 11 2020 "1234"))).
    left. cbn. lia.
Defined.

(** * Further properties of the package *)

(** ** When [Validate] returns *)

(** On a number shorter than three bytes the places 3 to 6 of
    [ccDigits] are left at 0. *)
Lemma at_fillDigits_short (number : string) (k : nat) :
  (String.length number < 3)%nat -> (3 <= k <= 6)%nat ->
  at_ (fillDigits number) k = 0.
Proof.
  intros Hlen Hk. rewrite at_fillDigits by lia.
  destruct (k - 1 <? String.length number)%nat eqn:H; [| reflexivity].
  apply Nat.ltb_lt in H. lia.
Qed.

(** On such a number only the two-digit tests of the cases before
    Maestro can hold. *)
Lemma beforeMaestro_short (number : string) :
  (String.length number < 3)%nat ->
  (beforeMaestro (fillDigits number) (Go.len number) = None /\
   caseMaestroHead (fillDigits number) = false) <->
  ~ In (at_ (fillDigits number) 2) [34; 36; 37; 38; 39; 62; 65].
Proof.
  intros Hlen.
  assert (H3 := at_fillDigits_short number 3 Hlen ltac:(lia)).
  assert (H4 := at_fillDigits_short number 4 Hlen ltac:(lia)).
  assert (H6 := at_fillDigits_short number 6 Hlen ltac:(lia)).
  assert (Hcc : (Go.len number <=? 14) = true) by (apply Z.leb_le; unfold Go.len; lia).
  unfold beforeMaestro, caseElo, caseCabal, caseHipercard, caseAmericanExpress,
    caseBankcard, caseChinaUnionPay, caseDinersClubCarteBlanche,
    caseDinersClubEnroute, caseDinersClubInternational, caseDiscover,
    caseInterPayment, caseInstaPayment, caseMaestroHead.
  rewrite H3, H4, H6, Hcc. cbn [Z.eqb Z.geb Z.leb Z.compare Pos.compare Pos.compare_cont
                                 orb andb Pos.eqb].
  generalize (at_ (fillDigits number) 2). intros x. cbn [In].
  destruct (x =? 34) eqn:E34; [apply Z.eqb_eq in E34; split; [intros [H _]; discriminate | intros H; exfalso; apply H; lia] |].
  destruct (x =? 37) eqn:E37; [apply Z.eqb_eq in E37; split; [intros [H _]; discriminate | intros H; exfalso; apply H; lia] |].
  destruct (x =? 62) eqn:E62; [apply Z.eqb_eq in E62; split; [intros [H _]; discriminate | intros H; exfalso; apply H; lia] |].
  destruct (x =? 36) eqn:E36; [apply Z.eqb_eq in E36; split; [intros [H _]; discriminate | intros H; exfalso; apply H; lia] |].
  destruct (x =? 38) eqn:E38; [apply Z.eqb_eq in E38; split; [intros [H _]; discriminate | intros H; exfalso; apply H; lia] |].
  destruct (x =? 39) eqn:E39; [apply Z.eqb_eq in E39; split; [intros [H _]; discriminate | intros H; exfalso; apply H; lia] |].
  destruct (x =? 65) eqn:E65; [apply Z.eqb_eq in E65; split; [intros [H _]; discriminate | intros H; exfalso; apply H; lia] |].
  apply Z.eqb_neq in E34, E37, E62, E36, E38, E39, E65.
  cbn. split; [intros _; lia | intros _; split; reflexivity].
Qed.

(** [Validate] panics exactly when the classifier does. *)
Lemma Validate_Panicked_iff_classifier (now : Time.Time) (c : Card) :
  Validate now c = Panicked <-> determineCardType c = Panicked.
Proof.
  split.
  - intros H. destruct (determineCardType c) as [r|] eqn:Hdet; [| reflexivity].
    destruct (Validate_returns_of_classified now c r Hdet) as [v Hv].
    rewrite Hv in H. discriminate.
  - intros Hdet. unfold Validate.
    destruct (Go.len (Type_ c) =? 0).
    + rewrite Hdet. reflexivity.
    + cbn [bind]. cbv beta iota zeta. unfold validCardNumber. rewrite Hdet. reflexivity.
Qed.

(** X1.  [Validate] panics, instead of returning a [Validation],
    exactly on the cards whose [Number] has fewer than three bytes and
    whose two-digit prefix is none of 34, 36, 37, 38, 39, 62 and 65 (the
    prefixes that a case before Maestro takes on so short a number);
    the other fields and the time play no part. *)
Theorem Validate_panics_iff (now : Time.Time) (c : Card) :
  Validate now c = Panicked <->
  (String.length (Number c) < 3)%nat /\
  ~ In (at_ (fillDigits (Number c)) 2) [34; 36; 37; 38; 39; 62; 65].
Proof.
  rewrite Validate_Panicked_iff_classifier, determineCardType_panics_iff.
  split.
  - intros (Hlen & Hb & Hh). split; [exact Hlen |].
    apply beforeMaestro_short; [exact Hlen | split; assumption].
  - intros (Hlen & Hnot). split; [exact Hlen |].
    apply beforeMaestro_short; assumption.
Qed.

(** ** What the classifier returns *)

(** The cases before Maestro never give [Unknown] nor [Maestro]. *)
Lemma beforeMaestro_Some (d : digits) (ccLen : Z) (t : cardType) :
  beforeMaestro d ccLen = Some t -> t <> Unknown /\ t <> Maestro.
Proof.
  unfold beforeMaestro.
  repeat match goal with
         | |- context [if ?b then _ else _] => destruct b
         end;
    intros H; inversion H; split; discriminate.
Qed.

(** Without an error the cases after Maestro give a card type that is
    neither [Unknown] nor [Maestro]. *)
Lemma afterMaestro_inv (d : digits) (t : cardType) (err : error) :
  afterMaestro d = (t, err) ->
  (err = None /\ t <> Unknown /\ t <> Maestro) \/
  (err = Some "unknown creditcard type" /\ t = Unknown).
Proof.
  unfold afterMaestro.
  repeat match goal with
         | |- context [if ?b then _ else _] => destruct b
         end;
    intros H; inversion H;
    solve [left; repeat split; discriminate | right; split; reflexivity].
Qed.

(** X2.  The classifier returns the card type [Unknown] exactly when
    it returns an error, and its only error text is "unknown creditcard
    type": a card type other than [Unknown] never comes with an error. *)
Theorem determineCardType_Unknown_iff_error (c : Card) (t : cardType) (err : error) :
  determineCardType c = Returned (t, err) ->
  (t = Unknown <-> err = Some "unknown creditcard type") /\
  (t <> Unknown <-> err = None).
Proof.
  unfold determineCardType.
  destruct (beforeMaestro _ _) as [t0|] eqn:Hb.
  { intros H; inversion H; subst t0 err. apply beforeMaestro_Some in Hb.
    destruct Hb as [Hu _]. repeat split; try discriminate; try tauto. }
  destruct (caseMaestroHead _).
  { intros H; inversion H. repeat split; discriminate. }
  destruct (Go.sliceTo _ _) as [first3|]; cbn [bind]; [| discriminate].
  destruct (caseMaestroTail _ _).
  { intros H; inversion H. repeat split; discriminate. }
  intros H; inversion H as [Ha]. apply afterMaestro_inv in Ha.
  destruct Ha as [(-> & Hu & _) | (-> & ->)].
  - repeat split; try discriminate; tauto.
  - repeat split; try discriminate; tauto.
Qed.

(** The numbers "0000000000", rejected, and "4111111111111111", a Visa
    number. *)
Lemma determineCardType_Unknown_iff_error_witness :
  (Unknown = Unknown <-> Some "unknown creditcard type" = Some "unknown creditcard type") /\
  (Visa <> Unknown <-> @None string = None).
Proof.
  split.
  - apply (determineCardType_Unknown_iff_error (mkCard "" "0000000000" 11 2020 "123")
             Unknown (Some "unknown creditcard type") eq_refl).
  - apply (determineCardType_Unknown_iff_error (mkCard "" "4111111111111111" 11 2020 "123")
             Visa None eq_refl).
Defined.

(** X3.  The classifier returns Maestro exactly when no case from Elo
    to InstaPayment takes the number and its four-digit prefix is one of
    the eleven of the Maestro case; the comparison of [c.Number[:3]]
    with "0604" adds no number to them. *)
Theorem determineCardType_Maestro_iff (c : Card) :
  determineCardType c = Returned (Maestro, None) <->
  beforeMaestro (fillDigits (Number c)) (Go.len (Number c)) = None /\
  In (at_ (fillDigits (Number c)) 4)
     [5018; 5020; 5038; 5612; 5893; 6304; 6759; 6761; 6762; 6763; 6390].
Proof.
  split.
  2:{ intros [Hb Hin]. apply determineCardType_Maestro_prefix; assumption. }
  unfold determineCardType.
  destruct (beforeMaestro _ _) as [t0|] eqn:Hb.
  { intros H; inversion H; subst t0. apply beforeMaestro_Some in Hb. tauto. }
  intros H. split; [reflexivity |].
  destruct (caseMaestroHead _) eqn:Hh.
  { unfold caseMaestroHead in Hh. cbn [In].
    repeat (apply orb_true_iff in Hh; destruct Hh as [Hh | Hh]);
      apply Z.eqb_eq in Hh; rewrite Hh; tauto. }
  destruct (Go.sliceTo _ _) as [first3|] eqn:Hs; cbn [bind] in H; [| discriminate].
  destruct (caseMaestroTail _ _) eqn:Ht.
  { unfold caseMaestroTail in Ht. rewrite (sliceTo_3_not_0604 _ _ Hs) in Ht.
    cbn [orb] in Ht. apply Z.eqb_eq in Ht. rewrite Ht. cbn. tauto. }
  inversion H as [Ha]. apply afterMaestro_inv in Ha.
  destruct Ha as [(_ & _ & Hm) | (He & _)]; [contradiction | discriminate].
Qed.

(** ** Only the first six bytes and the length count *)

Lemma substring_0_substring_0 (s : string) (k m : nat) :
  (k <= m)%nat -> substring 0 k (substring 0 m s) = substring 0 k s.
Proof.
  revert k m. induction s as [|a s IH]; intros k m Hkm.
  - destruct k, m; reflexivity.
  - destruct k as [|k]; [destruct m; reflexivity |].
    destruct m as [|m]; [lia |].
    cbn [substring]. rewrite IH by lia. reflexivity.
Qed.

(** X4.  Two numbers of the same length that agree on their first six
    bytes get the same answer from the classifier: the bytes from the
    seventh on matter through the length of the number only. *)
Theorem determineCardType_first_six_bytes (c c' : Card) :
  substring 0 6 (Number c) = substring 0 6 (Number c') ->
  String.length (Number c) = String.length (Number c') ->
  determineCardType c = determineCardType c'.
Proof.
  intros Hsix Hlen.
  assert (Hsub : forall k, (k <= 6)%nat ->
            substring 0 k (Number c) = substring 0 k (Number c')).
  { intros k Hk. rewrite <- (substring_0_substring_0 (Number c) k 6 Hk).
    rewrite <- (substring_0_substring_0 (Number c') k 6 Hk). rewrite Hsix. reflexivity. }
  assert (Hfill : fillDigits (Number c) = fillDigits (Number c')).
  { unfold fillDigits. cbn [seq fold_left Nat.add]. rewrite Hlen.
    rewrite !Hsub by lia. reflexivity. }
  unfold determineCardType, Go.sliceTo, Go.len.
  rewrite Hfill, Hlen, (Hsub 3%nat) by lia. reflexivity.
Qed.

(** Two Visa numbers of sixteen digits with the same first six. *)
Lemma determineCardType_first_six_bytes_witness :
  determineCardType (mkCard "" "4111111111111111" 11 2020 "123") =
  determineCardType (mkCard "" "4111119876543210" 1 1999 "4567").
Proof.
  apply (determineCardType_first_six_bytes
           (mkCard "" "4111111111111111" 11 2020 "123")
           (mkCard "" "4111119876543210" 1 1999 "4567")); reflexivity.
Defined.

(** ** The size of the prefixes *)

Lemma digitsValue_bound (s : string) (n v : Z) :
  0 <= n -> Go.digitsValue s n = Some v ->
  n * 10 ^ Z.of_nat (String.length s) <= v < (n + 1) * 10 ^ Z.of_nat (String.length s).
Proof.
  revert n. induction s as [|ch rest IH]; intros n Hn H.
  - cbn in H. inversion H. cbn. lia.
  - cbn [Go.digitsValue] in H. destruct (Go.isDigit ch) eqn:Hd; [| discriminate].
    pose proof (digitVal_range ch Hd) as Hr.
    apply IH in H; [| lia].
    cbn [String.length]. rewrite Nat2Z.inj_succ, Z.pow_succ_r by lia.
    assert (Hp : 0 < 10 ^ Z.of_nat (String.length rest)) by (apply Z.pow_pos_nonneg; lia).
    nia.
Qed.

(** [strconv.Atoi] on [k] bytes gives a number of at most [k] digits. *)
Lemma Atoi_bound (s : string) :
  - 10 ^ Z.of_nat (String.length s) < fst (Go.Atoi s) < 10 ^ Z.of_nat (String.length s).
Proof.
  assert (Hp : forall k, 0 < 10 ^ Z.of_nat k) by (intros k; apply Z.pow_pos_nonneg; lia).
  destruct s as [|c0 rest]; [cbn; lia |].
  unfold Go.Atoi.
  set (neg := Ascii.eqb c0 "-").
  set (body := if neg || Ascii.eqb c0 "+" then rest else String c0 rest).
  assert (Hbody : (String.length body <= String.length (String c0 rest))%nat).
  { unfold body. destruct (neg || Ascii.eqb c0 "+"); cbn; lia. }
  assert (Hmono : 10 ^ Z.of_nat (String.length body)
                  <= 10 ^ Z.of_nat (String.length (String c0 rest)))
    by (apply Z.pow_le_mono_r; lia).
  specialize (Hp (String.length (String c0 rest))).
  destruct body as [|b0 brest] eqn:Eb; [cbn [fst]; lia |].
  destruct (Go.digitsValue (String b0 brest) 0) as [n|] eqn:Hv; [| cbn [fst]; lia].
  apply digitsValue_bound in Hv; [| lia].
  unfold Go.minInt, Go.maxInt.
  destruct neg.
  - destruct (- n <? - 2 ^ 63) eqn:H1; [apply Z.ltb_lt in H1; cbn [fst]; lia |].
    destruct (2 ^ 63 - 1 <? - n) eqn:H2; [apply Z.ltb_lt in H2; cbn [fst]; lia |].
    cbn [fst]. lia.
  - destruct (n <? - 2 ^ 63) eqn:H1; [apply Z.ltb_lt in H1; cbn [fst]; lia |].
    destruct (2 ^ 63 - 1 <? n) eqn:H2; [apply Z.ltb_lt in H2; cbn [fst]; lia |].
    cbn [fst]. lia.
Qed.

Lemma length_substring_0_le (s : string) (k : nat) :
  (String.length (substring 0 k s) <= k)%nat.
Proof.
  revert k. induction s as [|a s IH]; intros [|k]; cbn; try lia.
  specialize (IH k). lia.
Qed.

(** A prefix of [k] bytes is read as a number of at most [k] digits. *)
Lemma prefix_of_k_bytes_bound (number : string) (k : nat) :
  (1 <= k <= 6)%nat ->
  - 10 ^ Z.of_nat k < at_ (fillDigits number) k < 10 ^ Z.of_nat k.
Proof.
  intros Hk. rewrite at_fillDigits by exact Hk.
  assert (Hp : 0 < 10 ^ Z.of_nat k) by (apply Z.pow_pos_nonneg; lia).
  destruct (k - 1 <? String.length number)%nat; [| lia].
  pose proof (Atoi_bound (substring 0 k number)) as Hb.
  pose proof (length_substring_0_le number k) as Hl.
  assert (Hmono : 10 ^ Z.of_nat (String.length (substring 0 k number)) <= 10 ^ Z.of_nat k)
    by (apply Z.pow_le_mono_r; lia).
  lia.
Qed.

(** X5.  The entry of [ccDigits] for the prefix of [k] bytes is, for
    every number, well formed or not, an integer of at most [k] digits:
    it lies strictly between [-10^k] and [10^k]. *)
Theorem at_fillDigits_bound (number : string) (k : nat) :
  (1 <= k <= 6)%nat ->
  - 10 ^ Z.of_nat k < at_ (fillDigits number) k < 10 ^ Z.of_nat k.
Proof.
  intros Hk. exact (prefix_of_k_bytes_bound number k Hk).
Qed.

(** The prefix of four bytes of "-999x": the entry is -999. *)
Lemma at_fillDigits_bound_witness :
  - 10 ^ 4 < at_ (fillDigits "-999x") 4 < 10 ^ 4.
Proof.
  apply (at_fillDigits_bound "-999x" 4). lia.
Defined.

(** X6.  The Hipercard case holds exactly when the six-digit prefix is
    one of 384100, 384140, 384160, 606282 and 637095: its four tests of
    the four-digit prefix against 637568, 637599, 637609 and 637612
    never hold, a prefix of four bytes being below 10000. *)
Theorem caseHipercard_iff (number : string) :
  caseHipercard (fillDigits number) = true <->
  In (at_ (fillDigits number) 6) [384100; 384140; 384160; 606282; 637095].
Proof.
  pose proof (prefix_of_k_bytes_bound number 4 ltac:(lia)) as H4.
  change (10 ^ Z.of_nat 4) with 10000 in H4.
  unfold caseHipercard. cbn [In].
  rewrite !orb_true_iff, !Z.eqb_eq. lia.
Qed.

(** ** The display names *)

(** X7.  The display names of the card types are pairwise distinct and
    none is empty: comparing names, as [validCardNumber] does, is
    comparing card types, and a name written into [Type] never leaves
    it empty. *)
Theorem name_injective (t t' : cardType) :
  (name t = name t' <-> t = t') /\ name t <> "".
Proof.
  split; [split |].
  - destruct t, t'; intros H; try reflexivity; cbn in H; discriminate.
  - intros ->. reflexivity.
  - destruct t; discriminate.
Qed.

(** ** The card after [Validate] *)

Lemma len_eqb_0 (s : string) : (Go.len s =? 0) = true <-> s = "".
Proof.
  unfold Go.len. destruct s; cbn; split; intros H; try reflexivity; discriminate.
Qed.

Lemma name_not_empty (t : cardType) : (Go.len (name t) =? 0) = false.
Proof. destruct t; reflexivity. Qed.

(** X8.  [Validate] writes to the card's [Type] at most: the number,
    the CVV, the expiry month and the expiry year of the card are as
    before the call, a card whose [Type] was given is left as it was,
    and after the call the [Type] is never empty. *)
Theorem Validate_card_fields (now : Time.Time) (c : Card) (v : Validation) :
  Validate now c = Returned v ->
  Number (Card_ v) = Number c /\ CVV (Card_ v) = CVV c /\
  ExpiryMonth (Card_ v) = ExpiryMonth c /\ ExpiryYear (Card_ v) = ExpiryYear c /\
  Type_ (Card_ v) <> "" /\
  (Type_ c <> "" -> Card_ v = c).
Proof.
  intros H. apply Validate_inv in H.
  destruct H as (c' & err1 & validNumber & err2 & Hback & _ & ->).
  cbn [Card_].
  destruct (backfill_fields c c' err1 Hback) as (Hn & Hc & Hm & Hy).
  repeat split; try assumption.
  - destruct Hback as [Hne | t err _ _].
    + intros Habs. apply len_eqb_0 in Habs. congruence.
    + cbn [setType Type_]. intros Habs. apply len_eqb_0 in Habs.
      rewrite name_not_empty in Habs. discriminate.
  - intros Hty. destruct Hback as [_ | t err He _]; [reflexivity |].
    apply len_eqb_0 in He. contradiction.
Qed.

(** The test card with the network "Something" is returned as it was. *)
Lemma Validate_card_fields_witness :
  exists v, Validate (Time.Date 2019 1 15)
              (mkCard "Something" "5019717010103742" 11 2019 "1234") = Returned v /\
            Card_ v = mkCard "Something" "5019717010103742" 11 2019 "1234".
Proof.
  eexists. split; [reflexivity |].
  apply (Validate_card_fields (Time.Date 2019 1 15)
           (mkCard "Something" "5019717010103742" 11 2019 "1234") _ eq_refl).
  discriminate.
Defined.

(** X9.  The flag of the card number, in full: [ValidCardNumber] is
    false when the classifier fails; otherwise it is the result of the
    Luhn check if the [Type] was empty or is the display name of the
    card type found, and false if another [Type] was given. *)
Theorem ValidCardNumber_characterised
    (now : Time.Time) (c : Card) (v : Validation) (t : cardType) (err : error) :
  Validate now c = Returned v ->
  determineCardType c = Returned (t, err) ->
  ValidCardNumber v =
    match err with
    | Some _ => false
    | None =>
        ((Go.len (Type_ c) =? 0) || (name t =? Type_ c)%string) && validateLuhn c
    end.
Proof.
  intros H Hdet. apply Validate_inv in H.
  destruct H as (c' & err1 & validNumber & err2 & Hback & Hnum & ->).
  cbn [ValidCardNumber].
  unfold validCardNumber in Hnum.
  rewrite (determineCardType_Number c' c) in Hnum by (apply (backfill_fields c c' err1 Hback)).
  rewrite Hdet in Hnum. cbn [bind] in Hnum. cbv beta iota zeta in Hnum.
  destruct err as [m|]; [inversion Hnum; reflexivity |].
  destruct Hback as [Hne | t' err' He Hdet'].
  - rewrite Hne. cbn [orb].
    destruct (name t =? Type_ c)%string; cbn [negb] in Hnum; inversion Hnum; reflexivity.
  - rewrite Hdet in Hdet'. inversion Hdet'; subst t' err'.
    cbn [setType Type_] in Hnum. rewrite String.eqb_refl in Hnum. cbn [negb] in Hnum.
    rewrite He. inversion Hnum. reflexivity.
Qed.

(** The Dankort test card under the network "Something": the number
    passes the Luhn check and the flag is false. *)
Lemma ValidCardNumber_characterised_witness :
  exists v, Validate (Time.Date 2019 1 15)
              (mkCard "Something" "5019717010103742" 11 2019 "1234") = Returned v /\
            ValidCardNumber v = false /\
            validateLuhn (mkCard "Something" "5019717010103742" 11 2019 "1234") = true.
Proof.
  eexists. split; [reflexivity |]. split; [| reflexivity].
  rewrite (ValidCardNumber_characterised (Time.Date 2019 1 15)
             (mkCard "Something" "5019717010103742" 11 2019 "1234") _ Dankort None
             eq_refl eq_refl).
  reflexivity.
Defined.

(** X10.  When an invalid month or an invalid year is reported, the
    card is reported expired as well, and "creditcard is expired" is in
    the error list beside the text of the month or of the year. *)
Theorem invalid_expiry_is_expired (now : Time.Time) (c : Card) (v : Validation) :
  Validate now c = Returned v ->
  ValidExpiryMonth v = false \/ ValidExpiryYear v = false ->
  IsExpired v = true /\ In "creditcard is expired" (Errors v) /\
  (ValidExpiryMonth v = false -> In (monthMessage c) (Errors v)) /\
  (ValidExpiryYear v = false -> In (yearMessage c) (Errors v)).
Proof.
  intros H Hinv.
  destruct (In_Errors now c v H) as (extras & _ & Hin).
  assert (Hexp : IsExpired v = true).
  { apply Validate_inv in H.
    destruct H as (c' & err1 & validNumber & err2 & _ & _ & ->).
    cbn [IsExpired ValidExpiryMonth ValidExpiryYear] in *.
    apply isExpired_invalid. exact Hinv. }
  split; [exact Hexp |]. split; [| split].
  - apply Hin. right; right; left. split; [exact Hexp | reflexivity].
  - intros Hm. apply Hin. left. split; [exact Hm | reflexivity].
  - intros Hy. apply Hin. right; left. split; [exact Hy | reflexivity].
Qed.

(** The test card with the month 111. *)
Lemma invalid_expiry_is_expired_witness :
  exists v, Validate (Time.Date 2019 1 15)
              (mkCard "Something" "5019717010103742" 111 2019 "1234") = Returned v /\
            IsExpired v = true /\ In "creditcard is expired" (Errors v) /\
            In "month '111' is not a valid month" (Errors v).
Proof.
  eexists. split; [reflexivity |].
  destruct (invalid_expiry_is_expired (Time.Date 2019 1 15)
              (mkCard "Something" "5019717010103742" 111 2019 "1234") _ eq_refl
              (or_introl eq_refl)) as (He & Hi & Hm & _).
  split; [exact He |]. split; [exact Hi | exact (Hm eq_refl)].
Defined.

(** ** A second call *)

(** The checks of the expiry read the month and the year only. *)
Lemma expiryErrors_fields (now : Time.Time) (c c' : Card) :
  ExpiryMonth c' = ExpiryMonth c -> ExpiryYear c' = ExpiryYear c ->
  validExpiryMonth c' = validExpiryMonth c /\
  validExpiryYear c' = validExpiryYear c /\
  isExpired now c' = isExpired now c /\
  expiryErrors now c' = expiryErrors now c.
Proof.
  intros Hm Hy.
  unfold expiryErrors, isExpired, monthMessage, yearMessage,
    validExpiryMonth, validExpiryYear.
  rewrite Hm, Hy. repeat split; reflexivity.
Qed.

(** X11.  Validating again, at the same time, the card as a first
    call left it gives the same card, the same five flags and the same
    set of error texts; and the very same result, error list included,
    unless the first call had an empty [Type] to fill in and the
    classifier failed (the first list then holds the classifier's text
    once more than the second). *)
Theorem Validate_again (now : Time.Time) (c : Card) (v : Validation) :
  Validate now c = Returned v ->
  exists v', Validate now (Card_ v) = Returned v' /\
    Card_ v' = Card_ v /\
    ValidCardNumber v' = ValidCardNumber v /\
    ValidExpiryMonth v' = ValidExpiryMonth v /\
    ValidExpiryYear v' = ValidExpiryYear v /\
    ValidCVV v' = ValidCVV v /\
    IsExpired v' = IsExpired v /\
    (forall x, In x (Errors v') <-> In x (Errors v)) /\
    (Type_ c <> "" \/ (exists t, determineCardType c = Returned (t, None)) -> v' = v).
Proof.
  intros H. apply Validate_inv in H.
  destruct H as (c' & err1 & validNumber & err2 & Hback & Hnum & ->).
  cbn [Card_ ValidCardNumber ValidExpiryMonth ValidExpiryYear ValidCVV IsExpired Errors].
  destruct (backfill_fields c c' err1 Hback) as (Hn & _ & Hm & Hy).
  destruct (expiryErrors_fields now c c' Hm Hy) as (Hvm & Hvy & Hexp & Herrs).
  assert (Hty : (Go.len (Type_ c') =? 0) = false).
  { destruct Hback as [Hne | t err _ _]; [exact Hne | apply name_not_empty]. }
  assert (Hv' : Validate now c' =
                Returned (mkValidation c' validNumber (validExpiryMonth c) (validExpiryYear c)
                            (matchCVV c') (isExpired now c)
                            (appendIf validNumber
                               (appendErr err2
                                  (appendIf (matchCVV c') (expiryErrors now c)
                                     "cvv doesn't match"))
                               "card number is not valid"))).
  { unfold Validate. rewrite Hty. cbn [bind]. cbv beta iota zeta.
    rewrite Hnum. cbn [bind]. cbv beta iota zeta.
    fold (expiryErrors now c'). rewrite Hvm, Hvy, Hexp, Herrs. reflexivity. }
  eexists. split; [exact Hv' |].
  cbn [Card_ ValidCardNumber ValidExpiryMonth ValidExpiryYear ValidCVV IsExpired Errors].
  repeat split.
  - repeat (rewrite In_appendIf || rewrite In_appendErr). tauto.
  - repeat (rewrite In_appendIf || rewrite In_appendErr).
    intros Hx.
    assert (Herr : err1 = Some x -> err2 = Some x).
    { intros Heq. inversion Hback as [_ Hc He | t err _ Hdet Hc He]; [congruence |].
      subst c' err1 err.
      unfold validCardNumber in Hnum.
      rewrite (determineCardType_Number (setType c (name t)) c) in Hnum by reflexivity.
      rewrite Hdet in Hnum. cbn [bind] in Hnum. cbv beta iota zeta in Hnum.
      inversion Hnum. reflexivity. }
    tauto.
  - intros Hsame.
    assert (He : err1 = None).
    { inversion Hback as [_ Hc He' | t err He Hdet Hc He']; [reflexivity |].
      destruct Hsame as [Hne | [t' Hdet']].
      - apply len_eqb_0 in He. contradiction.
      - rewrite Hdet in Hdet'. inversion Hdet'. reflexivity. }
    subst err1. reflexivity.
Qed.

(** The card with the rejected number "0000000000": the first call
    reports the classifier's text twice, the second once. *)
Lemma Validate_again_witness :
  exists v v',
    Validate (Time.Date 2020 1 15) (mkCard "" "0000000000" 11 2020 "1234") = Returned v /\
    Validate (Time.Date 2020 1 15) (Card_ v) = Returned v' /\
    Errors v = ["unknown creditcard type"; "unknown creditcard type"] /\
    Errors v' = ["unknown creditcard type"] /\
    (forall x, In x (Errors v') <-> In x (Errors v)).
Proof.
  destruct (Validate_again (Time.Date 2020 1 15) (mkCard "" "0000000000" 11 2020 "1234")
              _ eq_refl) as (v' & Hv' & _ & _ & _ & _ & _ & _ & Hin & _).
  eexists. exists v'. split; [reflexivity |]. split; [exact Hv' |].
  split; [reflexivity |]. split; [| exact Hin].
  vm_compute in Hv'. inversion Hv'. reflexivity.
Defined.

(** ** The classifier's error in the list *)

Lemma count_occ_appendIf (b : bool) (errs : list string) (m x : string) :
  count_occ string_dec (appendIf b errs m) x =
  (count_occ string_dec errs x + if b && (m =? x)%string then 1 else 0)%nat.
Proof.
  unfold appendIf. destruct b; cbn [andb]; [| lia].
  rewrite count_occ_app. cbn [count_occ].
  destruct (string_dec m x) as [-> | Hne].
  - rewrite String.eqb_refl. reflexivity.
  - apply String.eqb_neq in Hne. rewrite Hne. reflexivity.
Qed.

Lemma count_occ_appendErr (err : error) (errs : list string) (x : string) :
  count_occ string_dec (appendErr err errs) x =
  (count_occ string_dec errs x +
   match err with Some m => if (m =? x)%string then 1 else 0 | None => 0 end)%nat.
Proof.
  unfold appendErr. destruct err as [m|]; [| lia].
  rewrite count_occ_app. cbn [count_occ].
  destruct (string_dec m x) as [-> | Hne].
  - rewrite String.eqb_refl. reflexivity.
  - apply String.eqb_neq in Hne. rewrite Hne. reflexivity.
Qed.

(** X12.  When the classifier fails, [Validate] returns with
    [ValidCardNumber] false, and the text "unknown creditcard type" is
    in the error list twice if the [Type] was empty (once from the
    fourth step, once from the check of the number) and once if a
    [Type] was given. *)
Theorem classifier_error_reported (now : Time.Time) (c : Card) (t : cardType) (e : string) :
  determineCardType c = Returned (t, Some e) ->
  exists v, Validate now c = Returned v /\
            ValidCardNumber v = false /\
            count_occ string_dec (Errors v) "unknown creditcard type" =
              if Go.len (Type_ c) =? 0 then 2%nat else 1%nat.
Proof.
  intros Hdet.
  destruct (determineCardType_error c t e Hdet) as [-> ->].
  assert (Hexp : count_occ string_dec (expiryErrors now c) "unknown creditcard type" = 0%nat).
  { unfold expiryErrors. rewrite !count_occ_appendIf. cbn [count_occ].
    replace (monthMessage c =? "unknown creditcard type")%string with false
      by (symmetry; apply String.eqb_neq; intros Habs; distinct_texts).
    replace (yearMessage c =? "unknown creditcard type")%string with false
      by (symmetry; apply String.eqb_neq; intros Habs; distinct_texts).
    rewrite !andb_false_r. reflexivity. }
  unfold Validate.
  destruct (Go.len (Type_ c) =? 0).
  - rewrite Hdet. cbn [bind]. cbv beta iota zeta. unfold validCardNumber.
    rewrite (determineCardType_Number (setType c (name Unknown)) c) by reflexivity.
    rewrite Hdet. cbn [bind]. cbv beta iota zeta.
    eexists. split; [reflexivity |]. cbn [ValidCardNumber Errors]. split; [reflexivity |].
    fold (expiryErrors now c).
    repeat (rewrite count_occ_appendIf || rewrite count_occ_appendErr). rewrite Hexp.
    replace ("cvv doesn't match" =? "unknown creditcard type")%string with false by reflexivity.
    rewrite andb_false_r. reflexivity.
  - cbn [bind]. cbv beta iota zeta. unfold validCardNumber.
    rewrite Hdet. cbn [bind]. cbv beta iota zeta.
    eexists. split; [reflexivity |]. cbn [ValidCardNumber Errors]. split; [reflexivity |].
    fold (expiryErrors now c).
    repeat (rewrite count_occ_appendIf || rewrite count_occ_appendErr). rewrite Hexp.
    replace ("cvv doesn't match" =? "unknown creditcard type")%string with false by reflexivity.
    rewrite andb_false_r. reflexivity.
Qed.

(** The rejected number "0000000000", without a [Type]. *)
Lemma classifier_error_reported_witness :
  exists v, Validate (Time.Date 2020 1 15) (mkCard "" "0000000000" 11 2020 "1234")
            = Returned v /\
            ValidCardNumber v = false /\
            count_occ string_dec (Errors v) "unknown creditcard type" = 2%nat.
Proof.
  exact (classifier_error_reported (Time.Date 2020 1 15)
           (mkCard "" "0000000000" 11 2020 "1234") Unknown "unknown creditcard type" eq_refl).
Defined.

(** ** The expiration flag *)

(** X13.  For a card with a valid month and a valid year, [IsExpired]
    is, for the months 10 to 12, whether the first day of that month,
    at 00:00 UTC, is strictly before the current time; for the months 1
    to 9 it is whether the zero time is before the current time, so
    that such a card is reported expired whatever its year. *)
Theorem IsExpired_characterised (now : Time.Time) (c : Card) (v : Validation) :
  Validate now c = Returned v ->
  validExpiryMonth c = true -> validExpiryYear c = true ->
  IsExpired v =
    if ExpiryMonth c <=? 9 then Time.Before Time.zero now
    else Time.Before (Time.Date (ExpiryYear c) (ExpiryMonth c) 1) now.
Proof.
  intros H Hvm Hvy. apply Validate_inv in H.
  destruct H as (c' & err1 & validNumber & err2 & _ & _ & ->).
  cbn [IsExpired].
  destruct (valid_expiry_bounds c Hvm Hvy) as [Hm _].
  destruct (ExpiryMonth c <=? 9) eqn:H9.
  - apply Z.leb_le in H9. apply isExpired_one_digit_month; [exact Hvy | lia].
  - apply Z.leb_gt in H9. apply isExpired_two_digit_month; [exact Hvy | lia].
Qed.

(** In January 2020: a card that expires in November 2020 is not
    expired, a card that expires in May 2100 is. *)
Lemma IsExpired_characterised_witness :
  (exists v, Validate (Time.Date 2020 1 15) (mkCard "" "5019717010103742" 11 2020 "1234")
             = Returned v /\ IsExpired v = false) /\
  (exists v, Validate (Time.Date 2020 1 15) (mkCard "" "5019717010103742" 5 2100 "1234")
             = Returned v /\ IsExpired v = true).
Proof.
  split; eexists; (split; [reflexivity |]).
  - rewrite (IsExpired_characterised (Time.Date 2020 1 15)
               (mkCard "" "5019717010103742" 11 2020 "1234") _ eq_refl eq_refl eq_refl).
    reflexivity.
  - rewrite (IsExpired_characterised (Time.Date 2020 1 15)
               (mkCard "" "5019717010103742" 5 2100 "1234") _ eq_refl eq_refl eq_refl).
    reflexivity.
Defined.

(** X14.  Expiration is monotone in time: a card that [isExpired]
    reports expired at one time is reported expired at every later
    time. *)
Theorem isExpired_monotone (now now' : Time.Time) (c : Card) :
  now <= now' -> isExpired now c = true -> isExpired now' c = true.
Proof.
  unfold isExpired, Time.Before. intros Hle.
  destruct (negb (validExpiryMonth c) || negb (validExpiryYear c)); [reflexivity |].
  cbv zeta. rewrite !Z.ltb_lt. lia.
Qed.

(** The card of November 2019, in January 2020 and in November 2026. *)
Lemma isExpired_monotone_witness :
  isExpired (Time.Date 2026 11 3) (mkCard "" "5019717010103742" 11 2019 "1234") = true.
Proof.
  apply (isExpired_monotone (Time.Date 2020 1 15) (Time.Date 2026 11 3)
           (mkCard "" "5019717010103742" 11 2019 "1234")).
  - vm_compute. discriminate.
  - reflexivity.
Defined.

(** ** An empty error list *)

Lemma appendIf_nil (b : bool) (errs : list string) (m : string) :
  appendIf b errs m = [] <-> b = false /\ errs = [].
Proof.
  unfold appendIf. destruct b.
  - split; [intros H; apply app_eq_nil in H; destruct H; discriminate
           | intros [H _]; discriminate].
  - tauto.
Qed.

Lemma appendErr_nil (err : error) (errs : list string) :
  appendErr err errs = [] <-> err = None /\ errs = [].
Proof.
  unfold appendErr. destruct err.
  - split; [intros H; apply app_eq_nil in H; destruct H; discriminate
           | intros [H _]; discriminate].
  - tauto.
Qed.

(** X15.  The error list of [Validate] is empty exactly when the month
    and the year are valid, the card is not expired, the classifier
    finds a card type whose name is the [Type] of the card after the
    call, and both [ValidCVV] and [ValidCardNumber] are false, that is,
    the length of the CVV is not the required one and the number does
    not pass the Luhn check. *)
Theorem Errors_empty_iff (now : Time.Time) (c : Card) (v : Validation) :
  Validate now c = Returned v ->
  (Errors v = [] <->
   ValidExpiryMonth v = true /\ ValidExpiryYear v = true /\ IsExpired v = false /\
   (exists t, determineCardType c = Returned (t, None) /\ name t = Type_ (Card_ v)) /\
   ValidCVV v = false /\ ValidCardNumber v = false /\ validateLuhn c = false).
Proof.
  intros H. apply Validate_inv in H.
  destruct H as (c' & err1 & validNumber & err2 & Hback & Hnum & ->).
  cbn [Errors ValidExpiryMonth ValidExpiryYear IsExpired ValidCVV ValidCardNumber Card_].
  destruct (backfill_fields c c' err1 Hback) as (Hn & _ & _ & _).
  assert (Hdet : determineCardType c' = determineCardType c)
    by (apply determineCardType_Number; exact Hn).
  assert (Hluhn : validateLuhn c' = validateLuhn c)
    by (unfold validateLuhn; rewrite Hn; reflexivity).
  unfold expiryErrors.
  rewrite !appendIf_nil, !appendErr_nil, !appendIf_nil, !appendErr_nil, !appendIf_nil,
    !negb_false_iff.
  split.
  - intros (Hvn & He2 & Hcvv & He1 & Hexp & Hvy & Hvm & _).
    apply validCardNumber_inv in Hnum. rewrite Hdet, Hluhn in Hnum.
    destruct Hnum as [[_ He] | [[_ He] | (Hv & _ & t & Ht & Hname)]]; try congruence.
    repeat split; try assumption; try congruence.
    exists t. split; assumption.
  - intros (Hvm & Hvy & Hexp & (t & Ht & Hname) & Hcvv & Hvn & _).
    unfold validCardNumber in Hnum. rewrite Hdet, Ht in Hnum.
    cbn [bind] in Hnum. cbv beta iota zeta in Hnum.
    rewrite Hname, String.eqb_refl in Hnum. cbn [negb] in Hnum.
    inversion Hnum; subst err2.
    assert (He1 : err1 = None).
    { inversion Hback as [_ Hc He | t' err _ Hdet' Hc He]; [reflexivity |].
      rewrite Ht in Hdet'. inversion Hdet'. reflexivity. }
    repeat split; try assumption; try reflexivity; congruence.
Qed.

(** A Visa number that fails the Luhn check, with a CVV of four
    digits, before its expiry: no error at all. *)
Lemma Errors_empty_iff_witness :
  exists v, Validate (Time.Date 2020 1 15) (mkCard "" "4111111111111112" 11 2020 "1234")
            = Returned v /\
            Errors v = [] /\
            validateLuhn (mkCard "" "4111111111111112" 11 2020 "1234") = false.
Proof.
  eexists. split; [reflexivity |].
  destruct (proj1 (Errors_empty_iff (Time.Date 2020 1 15)
                     (mkCard "" "4111111111111112" 11 2020 "1234") _ eq_refl) eq_refl)
    as (_ & _ & _ & _ & _ & _ & Hl).
  split; [reflexivity | exact Hl].
Defined.

(** ** The Luhn check on bytes that are not digits *)

Lemma length_zeroNonDigits (number : string) :
  String.length (zeroNonDigits number) = String.length number.
Proof.
  induction number as [|ch rest IH]; cbn; [reflexivity | rewrite IH; reflexivity].
Qed.

Lemma get_zeroNonDigits (number : string) (i : nat) :
  String.get i (zeroNonDigits number) =
  option_map (fun ch => if Go.isDigit ch then ch else "0"%char) (String.get i number).
Proof.
  revert i. induction number as [|ch rest IH]; intros [|i]; cbn; auto.
Qed.

Lemma luhnDigit_zeroNonDigits (number : string) (i : nat) (alternate : bool) :
  luhnDigit (zeroNonDigits number) i alternate = luhnDigit number i alternate.
Proof.
  unfold luhnDigit, Go.byteAt. rewrite get_zeroNonDigits.
  destruct (String.get i number) as [ch|]; cbn [option_map]; [| reflexivity].
  rewrite !Atoi_stringOfByte.
  destruct (Go.isDigit ch) eqn:Hd; [rewrite Hd; reflexivity | reflexivity].
Qed.

(** X16.  [validateLuhn] does not refuse a number for a byte that is
    not a digit: it counts such a byte as the digit 0, and gives the
    number the answer it gives to the number with these bytes replaced
    by '0'. *)
Theorem validateLuhn_zeroNonDigits (c : Card) :
  validateLuhn c =
  validateLuhn (mkCard (Type_ c) (zeroNonDigits (Number c))
                  (ExpiryMonth c) (ExpiryYear c) (CVV c)).
Proof.
  unfold validateLuhn, Go.len. cbn [Number]. rewrite length_zeroNonDigits.
  destruct (_ || _); [reflexivity |].
  f_equal. f_equal.
  generalize (String.length (Number c)) as k. generalize false as alternate.
  generalize 0 as sum.
  intros sum alternate k. revert alternate sum.
  induction k as [|i IH]; intros alternate sum; cbn [luhnLoop]; [reflexivity |].
  rewrite luhnDigit_zeroNonDigits. apply IH.
Qed.

(** ** The Luhn check detects a wrong digit *)

Lemma list_ascii_of_string_app (s1 s2 : string) :
  list_ascii_of_string (s1 ++ s2) =
  (list_ascii_of_string s1 ++ list_ascii_of_string s2)%list.
Proof.
  induction s1 as [|a s1 IH]; cbn; [reflexivity | rewrite IH; reflexivity].
Qed.

Lemma luhnSumFrom_app (pos : nat) (l m : list Z) :
  luhnSumFrom pos (l ++ m) = luhnSumFrom pos l + luhnSumFrom (pos + List.length l) m.
Proof.
  revert pos. induction l as [|x l IH]; intros pos; cbn [app luhnSumFrom List.length].
  - rewrite Nat.add_0_r. lia.
  - rewrite IH. replace (S pos + List.length l)%nat with (pos + S (List.length l))%nat by lia.
    lia.
Qed.

(** At a given position the weights of two different digits differ by
    less than 10: doubling, with 9 subtracted above 9, permutes the
    digits. *)
Lemma luhnWeighted_differ (pos : nat) (x y : Z) :
  0 <= x <= 9 -> 0 <= y <= 9 -> x <> y ->
  ~ (10 | luhnWeighted pos x - luhnWeighted pos y).
Proof.
  intros Hx Hy Hxy [q Hq]. unfold luhnWeighted in Hq.
  destruct (Nat.odd pos); [| lia].
  assert (Hcx : x = 0 \/ x = 1 \/ x = 2 \/ x = 3 \/ x = 4 \/
                x = 5 \/ x = 6 \/ x = 7 \/ x = 8 \/ x = 9) by lia.
  assert (Hcy : y = 0 \/ y = 1 \/ y = 2 \/ y = 3 \/ y = 4 \/
                y = 5 \/ y = 6 \/ y = 7 \/ y = 8 \/ y = 9) by lia.
  destruct Hcx as [-> | [-> | [-> | [-> | [-> | [-> | [-> | [-> | [-> | ->]]]]]]]]];
    destruct Hcy as [-> | [-> | [-> | [-> | [-> | [-> | [-> | [-> | [-> | ->]]]]]]]]];
    cbn in Hq; lia.
Qed.

Lemma digitVal_injective (a b : ascii) :
  Go.digitVal a = Go.digitVal b -> a = b.
Proof.
  unfold Go.digitVal. intros H.
  assert (Hn : N_of_ascii a = N_of_ascii b) by lia.
  rewrite <- (ascii_N_embedding a), <- (ascii_N_embedding b), Hn. reflexivity.
Qed.

(** On a number of 13 to 19 digits, [validateLuhn] tests the Luhn sum. *)
Lemma validateLuhn_luhnSum (c : Card) :
  13 <= Go.len (Number c) <= 19 -> allDigits (Number c) = true ->
  validateLuhn c = (Z.rem (luhnSum (Number c)) 10 =? 0).
Proof.
  intros Hlen Hall. unfold validateLuhn.
  destruct (Go.len (Number c) <? 13) eqn:H1; [apply Z.ltb_lt in H1; lia |].
  destruct (Go.len (Number c) >? 19) eqn:H2;
    [rewrite Z.gtb_ltb in H2; apply Z.ltb_lt in H2; lia |].
  cbn [orb]. rewrite luhnLoop_sum by (auto with arith).
  cbn [Nat.b2n]. rewrite Z.add_0_l, firstn_all2; [reflexivity |].
  unfold digitsOf. rewrite length_map, length_list_ascii_of_string. apply Nat.le_refl.
Qed.

(** The Luhn sum of a number, split at one of its digits. *)
Lemma luhnSum_split (pre post : string) (x : ascii) :
  luhnSum (pre ++ String x post) =
  luhnSumFrom 0 (rev (digitsOf post))
  + luhnWeighted (String.length post) (Go.digitVal x)
  + luhnSumFrom (S (String.length post)) (rev (digitsOf pre)).
Proof.
  unfold luhnSum, digitsOf.
  rewrite list_ascii_of_string_app. cbn [list_ascii_of_string].
  rewrite map_app. cbn [map]. rewrite rev_app_distr. cbn [rev].
  rewrite <- app_assoc. cbn [app].
  rewrite luhnSumFrom_app. cbn [luhnSumFrom Nat.add].
  rewrite length_rev, length_map, length_list_ascii_of_string. lia.
Qed.

(** X17.  The Luhn check detects every single wrong digit: if a number
    of 13 to 19 digits passes [validateLuhn], the number that differs
    from it in exactly one digit does not. *)
Theorem validateLuhn_single_digit_error
    (c c' : Card) (pre post : string) (a b : ascii) :
  Number c = (pre ++ String a post)%string ->
  Number c' = (pre ++ String b post)%string ->
  a <> b ->
  13 <= Go.len (Number c) <= 19 ->
  allDigits (Number c) = true -> allDigits (Number c') = true ->
  validateLuhn c = true -> validateLuhn c' = false.
Proof.
  intros Hc Hc' Hab Hlen Hall Hall' Hpass.
  assert (Hlen' : Go.len (Number c') = Go.len (Number c)).
  { unfold Go.len. rewrite Hc, Hc', <- !length_list_ascii_of_string,
      !list_ascii_of_string_app, !length_app. reflexivity. }
  assert (Hda : Go.isDigit a = true).
  { unfold allDigits in Hall. rewrite Hc, list_ascii_of_string_app, forallb_app in Hall.
    apply andb_true_iff in Hall. destruct Hall as [_ Hall]. cbn in Hall.
    apply andb_true_iff in Hall. apply Hall. }
  assert (Hdb : Go.isDigit b = true).
  { unfold allDigits in Hall'. rewrite Hc', list_ascii_of_string_app, forallb_app in Hall'.
    apply andb_true_iff in Hall'. destruct Hall' as [_ Hall']. cbn in Hall'.
    apply andb_true_iff in Hall'. apply Hall'. }
  rewrite validateLuhn_luhnSum in Hpass by assumption.
  rewrite validateLuhn_luhnSum by (rewrite ?Hlen'; assumption).
  apply Z.eqb_eq, Z.rem_divide in Hpass; [| discriminate].
  apply Z.eqb_neq. intros Hpass'. apply Z.rem_divide in Hpass'; [| discriminate].
  rewrite Hc, luhnSum_split in Hpass. rewrite Hc', luhnSum_split in Hpass'.
  apply (luhnWeighted_differ (String.length post) (Go.digitVal a) (Go.digitVal b)).
  - apply digitVal_range; exact Hda.
  - apply digitVal_range; exact Hdb.
  - intros Heq. apply Hab. apply digitVal_injective; exact Heq.
  - destruct Hpass as [q Hq]. destruct Hpass' as [q' Hq'].
    exists (q - q'). lia.
Qed.

(** The Dankort test number with its seventh digit, 7, changed to 1. *)
Lemma validateLuhn_single_digit_error_witness :
  validateLuhn (mkCard "" "5019711010103742" 11 2020 "1234") = false.
Proof.
  apply (validateLuhn_single_digit_error
           (mkCard "" "5019717010103742" 11 2020 "1234")
           (mkCard "" "5019711010103742" 11 2020 "1234")
           "501971" "010103742" "7"%char "1"%char);
    try reflexivity.
  - discriminate.
  - cbn. lia.
Defined.

(** ** Numbers that do not start with a digit from 1 to 9 *)

(** The end of [strconv.Atoi], on the value of the digits read. *)
Lemma Atoi_clamp_bound (neg : bool) (n P : Z) :
  0 <= n < P ->
  fst (let v := if neg then - n else n in
       if v <? Go.minInt then (Go.minInt, true)
       else if Go.maxInt <? v then (Go.maxInt, true)
       else (v, false)) < P.
Proof.
  intros Hn. cbv zeta. unfold Go.minInt, Go.maxInt.
  destruct neg.
  - destruct (- n <? - 2 ^ 63) eqn:H1; [cbn [fst]; lia |].
    destruct (2 ^ 63 - 1 <? - n) eqn:H2; [apply Z.ltb_lt in H2; lia |].
    cbn [fst]. lia.
  - destruct (n <? - 2 ^ 63) eqn:H1; [cbn [fst]; lia |].
    destruct (2 ^ 63 - 1 <? n) eqn:H2; [apply Z.ltb_lt in H2; cbn [fst]; lia |].
    cbn [fst]. lia.
Qed.

(** After a first byte that is a sign, the digit 0 or no digit at all,
    [strconv.Atoi] gives less than a number with as many digits as the
    string has bytes. *)
Lemma Atoi_no_leading_digit (a : ascii) (rest : string) :
  Go.isDigit a = false \/ a = "0"%char ->
  fst (Go.Atoi (String a rest)) < 10 ^ Z.of_nat (String.length rest).
Proof.
  intros Ha.
  assert (Hp : 0 < 10 ^ Z.of_nat (String.length rest)) by (apply Z.pow_pos_nonneg; lia).
  assert (Hrest : forall neg : bool,
            @fst Z bool
                (match rest with
                 | EmptyString => (0, true)
                 | _ => match Go.digitsValue rest 0 with
                        | None => (0, true)
                        | Some n =>
                            let v := if neg then - n else n in
                            if v <? Go.minInt then (Go.minInt, true)
                            else if Go.maxInt <? v then (Go.maxInt, true)
                            else (v, false)
                        end
                 end) < 10 ^ Z.of_nat (String.length rest)).
  { intros neg. destruct rest as [|b r] eqn:Er; [cbn [fst]; lia |]. rewrite <- Er in *.
    destruct (Go.digitsValue rest 0) as [n|] eqn:Hv; [| cbn [fst]; lia].
    apply digitsValue_bound in Hv; [| lia].
    apply Atoi_clamp_bound. lia. }
  unfold Go.Atoi.
  destruct (Ascii.eqb a "-") eqn:Em; [exact (Hrest true) |].
  destruct (Ascii.eqb a "+") eqn:Ep; [exact (Hrest false) |].
  cbn [orb]. cbv beta iota zeta. cbn [Go.digitsValue].
  destruct Ha as [Hd | ->].
  - rewrite Hd. cbn [fst]. lia.
  - change (Go.isDigit "0") with true. cbv iota.
    change (0 * 10 + Go.digitVal "0") with 0.
    destruct (Go.digitsValue rest 0) as [n|] eqn:Hv; [| cbn [fst]; lia].
    apply digitsValue_bound in Hv; [| lia].
    apply (Atoi_clamp_bound false). lia.
Qed.

(** When no prefix has as many digits as it has bytes, no case of the
    [switch] holds but the [default]. *)
Lemma cases_of_small_prefixes (d : digits) (ccLen : Z) :
  at_ d 1 < 1 -> at_ d 2 < 10 -> at_ d 3 < 100 -> at_ d 4 < 1000 -> at_ d 6 < 100000 ->
  beforeMaestro d ccLen = None /\ caseMaestroHead d = false /\
  (at_ d 4 =? 6390) = false /\
  afterMaestro d = (Unknown, Some "unknown creditcard type").
Proof.
  unfold beforeMaestro, afterMaestro, caseElo, caseCabal, caseHipercard,
    caseAmericanExpress, caseBankcard, caseChinaUnionPay, caseDinersClubCarteBlanche,
    caseDinersClubEnroute, caseDinersClubInternational, caseDiscover,
    caseInterPayment, caseInstaPayment, caseMaestroHead, caseDankort, caseMastercard,
    caseJCB, caseAura, caseVisaElectron, caseVisa.
  generalize (at_ d 1) (at_ d 2) (at_ d 3) (at_ d 4) (at_ d 6).
  intros x1 x2 x3 x4 x6 H1 H2 H3 H4 H6.
  repeat match goal with
         | |- context [?x =? ?k] =>
             replace (x =? k) with false by (symmetry; apply Z.eqb_neq; lia)
         | |- context [?x >=? ?k] =>
             replace (x >=? k) with false
               by (symmetry; rewrite Z.geb_leb; apply Z.leb_gt; lia)
         end.
  cbn [andb orb]. repeat split; reflexivity.
Qed.

(** X18.  A number of three bytes or more whose first byte is not a
    digit from 1 to 9 (a 0, a sign, a letter, a space) is never given a
    card type: the classifier returns [Unknown] with the error "unknown
    creditcard type". *)
Theorem determineCardType_no_leading_digit (c : Card) (a : ascii) :
  (3 <= String.length (Number c))%nat ->
  String.get 0 (Number c) = Some a ->
  Go.isDigit a = false \/ a = "0"%char ->
  determineCardType c = Returned (Unknown, Some "unknown creditcard type").
Proof.
  intros Hlen Hget Ha.
  destruct c as [ty number month year cvv]. cbn [Number] in *.
  destruct number as [|a0 rest]; [discriminate |].
  cbn in Hget. inversion Hget; subst a0. clear Hget.
  assert (Hat : forall k, (1 <= k <= 6)%nat ->
            at_ (fillDigits (String a rest)) k < 10 ^ Z.of_nat (k - 1)).
  { intros k Hk. rewrite at_fillDigits by exact Hk.
    assert (Hp : 0 < 10 ^ Z.of_nat (k - 1)) by (apply Z.pow_pos_nonneg; lia).
    destruct (k - 1 <? String.length (String a rest))%nat; [| lia].
    destruct k as [|k]; [lia |]. cbn [substring].
    pose proof (Atoi_no_leading_digit a (substring 0 k rest) Ha) as Hb.
    pose proof (length_substring_0_le rest k) as Hl.
    assert (Hmono : 10 ^ Z.of_nat (String.length (substring 0 k rest))
                    <= 10 ^ Z.of_nat (S k - 1))
      by (apply Z.pow_le_mono_r; lia).
    lia. }
  destruct (cases_of_small_prefixes (fillDigits (String a rest))
              (Go.len (String a rest)))
    as (Hb & Hh & H6390 & Hafter);
    [apply (Hat 1%nat); lia | apply (Hat 2%nat); lia | apply (Hat 3%nat); lia
    | apply (Hat 4%nat); lia | apply (Hat 6%nat); lia |].
  unfold determineCardType. cbn [Number]. rewrite Hb, Hh.
  destruct (Go.sliceTo (String a rest) 3) as [first3|] eqn:Hs.
  - cbn [bind]. unfold caseMaestroTail.
    rewrite (sliceTo_3_not_0604 _ _ Hs), H6390. cbn [orb]. rewrite Hafter. reflexivity.
  - unfold Go.sliceTo in Hs.
    destruct (3 <=? String.length (String a rest))%nat eqn:Hl; [discriminate |].
    apply Nat.leb_gt in Hl. lia.
Qed.

(** The number "0604000000000000", which starts with a 0, and a Visa
    number written with a sign. *)
Lemma determineCardType_no_leading_digit_witness :
  determineCardType (mkCard "" "0604000000000000" 11 2020 "123")
  = Returned (Unknown, Some "unknown creditcard type") /\
  determineCardType (mkCard "" "+4111111111111111" 11 2020 "123")
  = Returned (Unknown, Some "unknown creditcard type").
Proof.
  split.
  - apply (determineCardType_no_leading_digit
             (mkCard "" "0604000000000000" 11 2020 "123") "0"%char);
      [cbn; lia | reflexivity | right; reflexivity].
  - apply (determineCardType_no_leading_digit
             (mkCard "" "+4111111111111111" 11 2020 "123") "+"%char);
      [cbn; lia | reflexivity | left; reflexivity].
Defined.

(** ** The text of the mismatch and the order of the texts *)

(** X19.  The text "given card type doesn't match determined card
    type" is in the error list exactly when the card came with a [Type]
    and the classifier finds a card type whose display name is another
    one; it never comes together with "card number is not valid". *)
Theorem mismatch_reported_iff (now : Time.Time) (c : Card) (v : Validation) :
  Validate now c = Returned v ->
  (In mismatchMessage (Errors v) <->
   Type_ c <> "" /\
   exists t, determineCardType c = Returned (t, None) /\ name t <> Type_ c) /\
  (In mismatchMessage (Errors v) -> ~ In "card number is not valid" (Errors v)).
Proof.
  intros H.
  destruct (In_Errors now c v H) as (extras & Hextras & Hin).
  apply Validate_inv in H.
  destruct H as (c' & err1 & validNumber & err2 & Hback & Hnum & Hv).
  assert (Hiff : In mismatchMessage (Errors v) <-> err2 = Some mismatchMessage).
  { subst v. cbn [Errors]. unfold expiryErrors.
    repeat (rewrite In_appendIf || rewrite In_appendErr). cbn [In].
    split; [| tauto].
    intros Hm.
    repeat match goal with
           | H : _ \/ _ |- _ => destruct H
           | H : _ /\ _ |- _ => destruct H
           | H : False |- _ => destruct H
           end; try assumption; try distinct_texts.
    inversion Hback as [_ Hc He | t err _ Hdet Hc He]; subst; [discriminate |].
    apply determineCardType_error in Hdet. destruct Hdet as [_ Hd]. discriminate Hd. }
  assert (Hnum' := Hnum). unfold validCardNumber in Hnum'.
  split.
  - rewrite Hiff. split.
    + intros ->.
      apply bind_Returned_inv in Hnum'. destruct Hnum' as ([t e] & Hdet & Hk).
      cbv beta iota zeta in Hk.
      destruct e as [m|]; [apply determineCardType_error in Hdet; destruct Hdet as [_ ->];
                            inversion Hk |].
      destruct (name t =? Type_ c')%string eqn:Hname; cbn [negb] in Hk; [inversion Hk |].
      apply String.eqb_neq in Hname.
      inversion Hback as [Hne Hc He | t' err He' Hdet' Hc He]; subst.
      * split; [intros Habs; apply len_eqb_0 in Habs; congruence |].
        exists t. split; assumption.
      * rewrite (determineCardType_Number (setType c (name t')) c) in Hdet by reflexivity.
        rewrite Hdet in Hdet'. inversion Hdet'; subst t'.
        cbn [setType Type_] in Hname. contradiction.
    + intros (Hty & t & Hdet & Hname).
      inversion Hback as [Hne Hc He | t' err He' Hdet' Hc He]; subst.
      * rewrite Hdet in Hnum'. cbn [bind] in Hnum'. cbv beta iota zeta in Hnum'.
        apply String.eqb_neq in Hname. rewrite Hname in Hnum'. cbn [negb] in Hnum'.
        inversion Hnum'. reflexivity.
      * apply len_eqb_0 in He'. contradiction.
  - rewrite Hiff. intros ->.
    apply validCardNumber_inv in Hnum.
    destruct Hnum as [[Hf _] | [[Hf _] | (_ & He & _)]]; [| | discriminate];
      subst v validNumber; cbn [Errors]; unfold expiryErrors;
      repeat (rewrite In_appendIf || rewrite In_appendErr); cbn [In];
      intros Hm;
      repeat match goal with
             | H : _ \/ _ |- _ => destruct H
             | H : _ /\ _ |- _ => destruct H
             | H : False |- _ => destruct H
             end; try discriminate; try distinct_texts.
    all: inversion Hback as [_ Hc He | t err _ Hdet Hc He]; subst; [discriminate |];
      apply determineCardType_error in Hdet; destruct Hdet as [_ Hd]; discriminate Hd.
Qed.

(** The Dankort test card under the network "Something". *)
Lemma mismatch_reported_iff_witness :
  exists v, Validate (Time.Date 2019 1 15)
              (mkCard "Something" "5019717010103742" 11 2019 "1234") = Returned v /\
            In mismatchMessage (Errors v) /\
            ~ In "card number is not valid" (Errors v).
Proof.
  eexists. split; [reflexivity |].
  destruct (mismatch_reported_iff (Time.Date 2019 1 15)
              (mkCard "Something" "5019717010103742" 11 2019 "1234") _ eq_refl)
    as [Hiff Hnot].
  assert (Hrhs : Type_ (mkCard "Something" "5019717010103742" 11 2019 "1234") <> "" /\
                 exists t, determineCardType (mkCard "Something" "5019717010103742" 11 2019 "1234")
                           = Returned (t, None) /\
                           name t <> Type_ (mkCard "Something" "5019717010103742" 11 2019 "1234")).
  { split; [discriminate |]. exists Dankort. split; [reflexivity | discriminate]. }
  split; [apply Hiff; exact Hrhs | apply Hnot; apply Hiff; exact Hrhs].
Defined.

Lemma appendIf_app (b : bool) (errs : list string) (m : string) :
  appendIf b errs m = (errs ++ if b then [m] else [])%list.
Proof. destruct b; cbn; [reflexivity | rewrite app_nil_r; reflexivity]. Qed.

Lemma appendErr_app (err : error) (errs : list string) :
  appendErr err errs = (errs ++ match err with Some m => [m] | None => [] end)%list.
Proof. destruct err; cbn; [reflexivity | rewrite app_nil_r; reflexivity]. Qed.

(** X20.  The error list holds the texts in the order of the checks,
    each at most once per check: the month, the year, the expiration,
    the classifier's error of the fourth step (when the [Type] was
    empty), the CVV, the error of the check of the number (the
    classifier's, or the mismatch of the card type) and the text of the
    number. *)
Theorem Errors_in_order
    (now : Time.Time) (c : Card) (v : Validation) (t : cardType) (err : error) :
  Validate now c = Returned v ->
  determineCardType c = Returned (t, err) ->
  Errors v =
    ((if ValidExpiryMonth v then [] else [monthMessage c]) ++
     (if ValidExpiryYear v then [] else [yearMessage c]) ++
     (if IsExpired v then ["creditcard is expired"] else []) ++
     (if Go.len (Type_ c) =? 0
      then match err with Some e => [e] | None => [] end else []) ++
     (if ValidCVV v then ["cvv doesn't match"] else []) ++
     (match err with
      | Some e => [e]
      | None => if (name t =? Type_ (Card_ v))%string then [] else [mismatchMessage]
      end) ++
     (if ValidCardNumber v then ["card number is not valid"] else []))%list.
Proof.
  intros H Hdet. apply Validate_inv in H.
  destruct H as (c' & err1 & validNumber & err2 & Hback & Hnum & ->).
  cbn [Errors ValidExpiryMonth ValidExpiryYear IsExpired ValidCVV ValidCardNumber Card_].
  unfold validCardNumber in Hnum.
  rewrite (determineCardType_Number c' c) in Hnum by (apply (backfill_fields c c' err1 Hback)).
  rewrite Hdet in Hnum. cbn [bind] in Hnum. cbv beta iota zeta in Hnum.
  assert (He1 : (if Go.len (Type_ c) =? 0
                 then match err with Some e => [e] | None => [] end else [])
                = match err1 with Some m => [m] | None => [] end).
  { inversion Hback as [Hne Hc He | t' err' He' Hdet' Hc He].
    - rewrite Hne. reflexivity.
    - rewrite He'. rewrite Hdet in Hdet'. inversion Hdet'. reflexivity. }
  assert (He2 : match err with
                | Some e => [e]
                | None => if (name t =? Type_ c')%string then [] else [mismatchMessage]
                end = match err2 with Some m => [m] | None => [] end).
  { destruct err as [m|]; [inversion Hnum; reflexivity |].
    destruct (name t =? Type_ c')%string; cbn [negb] in Hnum; inversion Hnum; reflexivity. }
  rewrite He1, He2. unfold expiryErrors.
  repeat (rewrite appendIf_app || rewrite appendErr_app). cbn [app].
  destruct (validExpiryMonth c), (validExpiryYear c); cbn [negb];
    rewrite <- ?app_assoc; reflexivity.
Qed.

(** The rejected number "0000000000" with the month 13, in 2020. *)
Lemma Errors_in_order_witness :
  exists v, Validate (Time.Date 2020 1 15) (mkCard "" "0000000000" 13 2020 "123")
            = Returned v /\
            Errors v = ["month '13' is not a valid month"; "creditcard is expired";
                        "unknown creditcard type"; "cvv doesn't match";
                        "unknown creditcard type"].
Proof.
  eexists. split; [reflexivity |].
  rewrite (Errors_in_order (Time.Date 2020 1 15) (mkCard "" "0000000000" 13 2020 "123")
             _ Unknown (Some "unknown creditcard type") eq_refl eq_refl).
  reflexivity.
Defined.
